(** * satellite_consumer.storage: a shallow embedding and its properties

  The module [satellite_consumer/storage.py] writes labelled arrays to
  Zarr stores ([write_to_zarr]), repackages a store as one zip archive
  ([create_latest_zip]) and builds the S3 filesystem handle both use
  ([get_s3_fs]).  The functions are embedded as Rocq functions over an
  explicit model of the Python values they inspect; calls into xarray,
  zarr, PyYAML, pyresample and the filesystem that can fail for reasons
  the module does not control are fields of a record of collaborators. *)

From Stdlib Require Import ZArith Strings.Ascii Strings.Byte Floats.SpecFloat.
From stdpp Require Import base option list strings pretty gmap.

Set Warnings "-register-all".

(** ** Python results and exceptions *)

Module Py.

(** An instance of Python's [Exception]: its class name, the text
    [str(e)] yields, and the exception it was raised [from]
    ([__cause__]).  Interrupts outside the [Exception] hierarchy
    ([KeyboardInterrupt], [SystemExit]) are not values of this type. *)
Inductive exn : Type :=
| Exn (cls : string) (text : string) (cause : option exn).

Definition exn_cls (e : exn) : string := let 'Exn c _ _ := e in c.
Definition exn_str (e : exn) : string := let 'Exn _ t _ := e in t.
Definition exn_cause (e : exn) : option exn := let 'Exn _ _ c := e in c.

(** [raise OSError(text)] and [raise OSError(text) from e]. *)
Definition OSError (text : string) : exn := Exn "OSError" text None.
Definition OSError_from (text : string) (e : exn) : exn :=
  Exn "OSError" text (Some e).

Inductive result (A : Type) : Type :=
| Ok (a : A)
| Raise (e : exn).
Arguments Ok {A} a.
Arguments Raise {A} e.

Definition bind {A B} (r : result A) (k : A -> result B) : result B :=
  match r with
  | Ok a => k a
  | Raise e => Raise e
  end.

(** [try: body except Exception as e: raise wrap(e) from e]. *)
Definition try_except {A} (body : result A) (wrap : exn -> exn) : result A :=
  match body with
  | Ok a => Ok a
  | Raise e => Raise (wrap e)
  end.

(** Statements that mutate an object and may raise: the state reached is
    kept when an exception leaves the block. *)
Definition StE (S A : Type) : Type := S -> result A * S.

Definition ret {S A} (a : A) : StE S A := fun s => (Ok a, s).
Definition raise {S A} (e : exn) : StE S A := fun s => (Raise e, s).
Definition lift {S A} (r : result A) : StE S A := fun s => (r, s).
Definition modify {S} (f : S -> S) : StE S unit := fun s => (Ok tt, f s).
Definition gets {S A} (f : S -> A) : StE S A := fun s => (Ok (f s), s).

Definition bindS {S A B} (m : StE S A) (k : A -> StE S B) : StE S B :=
  fun s =>
    match m s with
    | (Ok a, s') => k a s'
    | (Raise e, s') => (Raise e, s')
    end.

(** [try: body except Exception as e: raise wrap(e) from e], stateful. *)
Definition try_exceptS {S A} (body : StE S A) (wrap : exn -> exn) : StE S A :=
  fun s =>
    match body s with
    | (Ok a, s') => (Ok a, s')
    | (Raise e, s') => (Raise (wrap e), s')
    end.

End Py.

Import Py.

Declare Scope py_scope.
Delimit Scope py_scope with py.
Notation "x <- r ;; k" := (Py.bind r (fun x => k))
(at level 100, r at next level, right associativity) : py_scope.
Notation "r ;;; k" := (Py.bind r (fun _ => k))
(at level 100, right associativity) : py_scope.
Notation "x <~ m ;; k" := (Py.bindS m (fun x => k))
(at level 100, m at next level, right associativity) : py_scope.
Notation "m ;;~ k" := (Py.bindS m (fun _ => k))
(at level 100, right associativity) : py_scope.
Local Open Scope py_scope.

(** ** Filesystem handles and the S3 resolver *)

Module Backend.

(** The keyword arguments [get_s3_fs] passes to [s3fs.S3FileSystem]. *)
Record S3FileSystem : Type := {
  anon : bool;
  key : string;
  secret : string;
  region_name : string;
  asynchronous : bool;
}.

(** [AsyncFileSystemWrapper(LocalFileSystem(auto_mkdir=...))] or an S3
    handle. *)
Inductive FileSystem : Type :=
| LocalFS (auto_mkdir : bool)
| S3FS (h : S3FileSystem).

Definition AWS_ACCESS_KEY_ID : string := "AWS_ACCESS_KEY_ID".
Definition AWS_SECRET_ACCESS_KEY : string := "AWS_SECRET_ACCESS_KEY".
Definition AWS_REGION : string := "AWS_REGION".

Definition required_vars : list string :=
  [AWS_ACCESS_KEY_ID; AWS_SECRET_ACCESS_KEY].

(** The text of the error raised for a missing variable [var]. *)
Definition missing_credential (var : string) : exn :=
  OSError ("Cannot use provided S3 workdir due to missing "
           +:+ "required authorization environment variable '"
           +:+ var +:+ "'").

(** [for var in [...]: if var not in os.environ: raise OSError(...)]. *)
Fixpoint check_required (vars : list string) (environ : gmap string string)
  : result unit :=
  match vars with
  | [] => Ok tt
  | var :: rest =>
      match environ !! var with
      | None => Raise (missing_credential var)
      | Some _ => check_required rest environ
      end
  end.

(** [os.environ[var]]: a [KeyError] when the variable is unset. *)
Definition environ_getitem (environ : gmap string string) (var : string)
  : result string :=
  match environ !! var with
  | Some v => Ok v
  | None => Raise (Exn "KeyError" ("'" +:+ var +:+ "'") None)
  end.

(** [os.getenv(var, dflt)]. *)
Definition getenv (environ : gmap string string) (var dflt : string) : string :=
  default dflt (environ !! var).

(** [get_s3_fs()], reading the process environment [environ].  The
    function-local [import s3fs] is taken to succeed. *)
Definition get_s3_fs (environ : gmap string string) : result FileSystem :=
  check_required required_vars environ ;;;
  k <- environ_getitem environ AWS_ACCESS_KEY_ID ;;
  s <- environ_getitem environ AWS_SECRET_ACCESS_KEY ;;
  Ok (S3FS {| anon := false;
              key := k;
              secret := s;
              region_name := getenv environ AWS_REGION "eu-west-1";
              asynchronous := true |}).

(** [path.startswith("s3://")]. *)
Definition is_s3_path (path : string) : bool :=
  String.prefix "s3://" path.

(** The first three statements of both [write_to_zarr] and
    [create_latest_zip]: a local handle unless the path is an S3 URL. *)
Definition resolve_fs (environ : gmap string string) (path : string)
  : result FileSystem :=
  if is_s3_path path then get_s3_fs environ else Ok (LocalFS true).

End Backend.

Import Backend.

(** ** Python values held in attribute mappings *)

Module Value.

(** The numpy floating scalar types ([np.floating] subclasses). *)
Inductive np_float_kind : Type :=
| float16 | float32 | float64 | longdouble.

(** Narrower than Python's own [float]. *)
Definition reduced_precision (k : np_float_kind) : bool :=
  match k with
  | float16 | float32 => true
  | float64 | longdouble => false
  end.

(** A [datetime.datetime] instance. *)
Record datetime : Type := {
  year : nat; month : nat; day : nat;
  hour : nat; minute : nat; second : nat; microsecond : nat;
  utcoffset_minutes : option Z;
}.

(** A [pyresample.geometry.AreaDefinition] instance. *)
Record AreaDefinition : Type := {
  area_id : string;
  description : string;
  proj_id : string;
  width : Z;
  height : Z;
}.

(** The values the writer tells apart with [isinstance], and the rest.
    A [dict] keeps its items in insertion order; its keys are strings.
    The number a float holds is a [spec_float]; [PyObject] is an instance
    of any class not listed. *)
Inductive pyval : Type :=
| PyNone
| PyStr (s : string)
| PyInt (n : Z)
| PyFloat (x : spec_float)
| PyNpFloating (k : np_float_kind) (x : spec_float)
| PyBool (b : bool)
| PyNpBool (b : bool)
| PyDict (items : list (string * pyval))
| PyList (elems : list pyval)
| PyArea (a : AreaDefinition)
| PyDatetime (d : datetime)
| PyObject (cls : string) (repr : string).

Abbreviation dict := (list (string * pyval)).

(** [isinstance(v, dict)], [isinstance(v, bool | np.bool_)],
    [isinstance(v, pyresample.geometry.AreaDefinition)],
    [isinstance(v, dt.datetime)], [isinstance(v, np.floating)]. *)
Definition isinstance_dict (v : pyval) : bool :=
  match v with PyDict _ => true | _ => false end.
Definition isinstance_bool (v : pyval) : bool :=
  match v with PyBool _ | PyNpBool _ => true | _ => false end.
Definition isinstance_AreaDefinition (v : pyval) : bool :=
  match v with PyArea _ => true | _ => false end.
Definition isinstance_datetime (v : pyval) : bool :=
  match v with PyDatetime _ => true | _ => false end.
Definition isinstance_np_floating (v : pyval) : bool :=
  match v with PyNpFloating _ _ => true | _ => false end.

(** [str(b)] for [bool] and [np.bool_]. *)
Definition str_bool (b : bool) : string := if b then "True" else "False".

(** The double-precision number nearest to [x] (ties to even). *)
Definition to_binary64 (x : spec_float) : spec_float :=
  match x with
  | S754_finite s m e => binary_round 53 1024 s m e
  | _ => x
  end.

(** [float(v)] for a numpy floating scalar: a Python float, which is a
    double.  A [float16], [float32] or [float64] keeps its number; a
    [longdouble] is rounded to double precision. *)
Definition py_float (v : pyval) : pyval :=
  match v with
  | PyNpFloating longdouble x => PyFloat (to_binary64 x)
  | PyNpFloating _ x => PyFloat x
  | _ => v
  end.

(** [d[k]] read and [d[k] = v]: an existing key keeps its position, a new
    key goes last. *)
Fixpoint dict_get (d : dict) (k : string) : option pyval :=
  match d with
  | [] => None
  | (k', v) :: rest => if String.eqb k' k then Some v else dict_get rest k
  end.

Fixpoint dict_setitem (d : dict) (k : string) (v : pyval) : dict :=
  match d with
  | [] => [(k, v)]
  | (k', v') :: rest =>
      if String.eqb k' k then (k', v) :: rest
      else (k', v') :: dict_setitem rest k v
  end.

Definition dict_getitem (d : dict) (k : string) : result pyval :=
  match dict_get d k with
  | Some v => Ok v
  | None => Raise (Exn "KeyError" ("'" +:+ k +:+ "'") None)
  end.

Definition keys (d : dict) : list string := d.*1.

(** Does a numpy float narrower than double precision occur in [v], at
    any depth of dicts and lists? *)
Fixpoint has_reduced_float (v : pyval) : bool :=
  match v with
  | PyNpFloating k _ => reduced_precision k
  | PyDict items =>
      existsb (fun kv => has_reduced_float kv.2) items
  | PyList elems => existsb has_reduced_float elems
  | _ => false
  end.

End Value.

Import Value.

(** ** The array model and the collaborators of the writer *)

Module Xr.

(** The data of a coordinate, by numpy dtype. *)
Inductive CoordData : Type :=
| StrCoord (values : list string)
| IntCoord (values : list Z)
| ObjectCoord (values : list pyval).

Definition is_str_coord (c : CoordData) : bool :=
  match c with StrCoord _ => true | _ => false end.

(** An [xr.DataArray]: its dimensions in order with their extents, the
    dask chunk size asked for per dimension (none before [chunk]), its
    coordinates and its attribute mapping. *)
Record DataArray : Type := {
  dims : list (string * nat);
  chunks : list (string * Z);
  coords : list (string * CoordData);
  attrs : dict;
}.

(** An [xr.Dataset]: named data variables, shared coordinates and
    dataset-level attributes. *)
Record Dataset : Type := {
  data_vars : list (string * DataArray);
  ds_coords : list (string * CoordData);
  ds_attrs : dict;
}.

(** [zarr.storage.FsspecStore(fs=fs, path=path)]. *)
Record FsspecStore : Type := {
  store_fs : FileSystem;
  store_path : string;
}.

(** One call [ds.to_zarr(store=..., **kwargs)]. *)
Record ToZarrCall : Type := {
  call_ds : Dataset;
  call_store : FsspecStore;
  call_kwargs : dict;
}.

(** The collaborators whose outcome the writer does not decide. *)
Record Libs : Type := {
  (** [yaml.dump(value)] *)
  yaml_dump : dict -> result string;
  (** [AreaDefinition.dump()] *)
  area_dump : AreaDefinition -> result string;
  (** [datetime.isoformat()] *)
  isoformat : datetime -> string;
  (** numpy's [str] of one element of an object array *)
  np_str : pyval -> string;
  (** [fs.exists(path)] *)
  fs_exists : FileSystem -> string -> result bool;
  (** what the backend answers to a [to_zarr] call *)
  to_zarr : ToZarrCall -> result unit;
}.

(** Generic association-list read and write for dimension and coordinate
    tables. *)
Fixpoint assoc_get {V} (l : list (string * V)) (k : string) : option V :=
  match l with
  | [] => None
  | (k', v) :: rest => if String.eqb k' k then Some v else assoc_get rest k
  end.

Fixpoint assoc_set {V} (l : list (string * V)) (k : string) (v : V)
  : list (string * V) :=
  match l with
  | [] => [(k, v)]
  | (k', v') :: rest =>
      if String.eqb k' k then (k', v) :: rest
      else (k', v') :: assoc_set rest k v
  end.


(** [da.chunk(spec)]: every key must name a dimension of the array
    ([ValueError] otherwise); the sizes asked for are recorded per
    dimension. *)
Definition da_chunk (spec : list (string * Z)) (da : DataArray)
  : result DataArray :=
  if forallb (fun kv => bool_decide (is_Some (assoc_get (dims da) kv.1))) spec
  then Ok {| dims := dims da;
             chunks := foldl (fun c kv => assoc_set c kv.1 kv.2) (chunks da) spec;
             coords := coords da;
             attrs := attrs da |}
  else Raise (Exn "ValueError" "chunks keys not found in data dimensions" None).

(** The index [0 .. n-1] xarray gives a dimension of extent [n] that has
    no coordinate. *)
Definition default_index (n : nat) : CoordData :=
  IntCoord (Z.of_nat <$> seq 0 n).

(** [da.coords[name]]: the coordinate of that name; for a dimension
    without a coordinate, its default index; a [KeyError] otherwise. *)
Definition coords_getitem (da : DataArray) (name : string) : result CoordData :=
  match assoc_get (coords da) name with
  | Some c => Ok c
  | None =>
      match assoc_get (dims da) name with
      | Some n => Ok (default_index n)
      | None => Raise (Exn "KeyError" ("'" +:+ name +:+ "'") None)
      end
  end.

(** [da.coords[name] = c]. *)
Definition coords_setitem (da : DataArray) (name : string) (c : CoordData)
  : DataArray :=
  {| dims := dims da;
     chunks := chunks da;
     coords := assoc_set (coords da) name c;
     attrs := attrs da |}.

(** [c.astype(str)]. *)
Definition astype_str (L : Libs) (c : CoordData) : CoordData :=
  match c with
  | StrCoord vs => StrCoord vs
  | IntCoord vs => StrCoord (pretty <$> vs)
  | ObjectCoord vs => StrCoord (np_str L <$> vs)
  end.

(** [da.to_dataset(name=name, promote_attrs=True)]: refused when a
    coordinate already has that name. *)
Definition to_dataset (da : DataArray) (name : string) : result Dataset :=
  match assoc_get (coords da) name with
  | Some _ =>
      Raise (Exn "ValueError"
               "cannot create a Dataset from a DataArray with the same name as one of its coordinates"
               None)
  | None =>
      Ok {| data_vars := [(name, da)];
            ds_coords := coords da;
            ds_attrs := attrs da |}
  end.

End Xr.

Import Xr.

(** ** [write_to_zarr] *)

Module Writer.

(** What a call can change: the array object the caller passed (its
    attribute mapping is rewritten in place) and the [to_zarr] calls the
    backend has received. *)
Record World : Type := {
  w_da : DataArray;
  w_calls : list ToZarrCall;
}.

(** The world with the attribute mapping of the array replaced. *)
Definition set_attrs (w : World) (a : dict) : World :=
  {| w_da := {| dims := dims (w_da w);
                chunks := chunks (w_da w);
                coords := coords (w_da w);
                attrs := a |};
     w_calls := w_calls w |}.

(** [da.attrs[key] = v] on the caller's array. *)
Definition attrs_setitem (key : string) (v : pyval) : StE World unit :=
  modify (fun w => set_attrs w (dict_setitem (attrs (w_da w)) key v)).

(** [ds.to_zarr(...)]: the backend receives the call and answers. *)
Definition zarr_call (L : Libs) (c : ToZarrCall) : StE World unit :=
  fun w => (to_zarr L c, {| w_da := w_da w; w_calls := w_calls w ++ [c] |}).

(** Lines 50-53: [for inner_key in value: ...], with [inner_keys] the keys
    still to visit. *)
Fixpoint widen_loop (inner_keys : list string) (value : dict) : result dict :=
  match inner_keys with
  | [] => Ok value
  | inner_key :: rest =>
      inner_value <- dict_getitem value inner_key ;;
      widen_loop rest
        (if isinstance_np_floating inner_value
         then dict_setitem value inner_key (py_float inner_value)
         else value)
  end.

(** Lines 48-54, for a value that is a dict.  [value] is the object
    [da.attrs[key]] refers to, so the widened items are visible through
    the mapping before [yaml.dump] runs. *)
Definition normalize_dict (L : Libs) (key : string) (value : dict)
  : StE World unit :=
  value' <~ lift (widen_loop (keys value) value) ;;
  attrs_setitem key (PyDict value') ;;~
  text <~ lift (yaml_dump L value') ;;
  attrs_setitem key (PyStr text).

(** Lines 48-61: the body of the loop over [da.attrs.items()], four
    [if isinstance(value, ...)] statements in a row. *)
Definition normalize_item (L : Libs) (key : string) (value : pyval)
  : StE World unit :=
  (match value with
   | PyDict d => normalize_dict L key d
   | _ => ret tt
   end) ;;~
  (match value with
   | PyBool b | PyNpBool b => attrs_setitem key (PyStr (str_bool b))
   | _ => ret tt
   end) ;;~
  (match value with
   | PyArea a => text <~ lift (area_dump L a) ;; attrs_setitem key (PyStr text)
   | _ => ret tt
   end) ;;~
  (match value with
   | PyDatetime d => attrs_setitem key (PyStr (isoformat L d))
   | _ => ret tt
   end).

Fixpoint normalize_loop (L : Libs) (items : dict) : StE World unit :=
  match items with
  | [] => ret tt
  | (key, value) :: rest =>
      normalize_item L key value ;;~ normalize_loop L rest
  end.

(** Lines 47-61. *)
Definition normalize_attrs (L : Libs) : StE World unit :=
  items <~ gets (fun w => attrs (w_da w)) ;;
  normalize_loop L items.

(** Line 64: the mapping handed to [da.chunk]. *)
Definition chunk_spec : list (string * Z) :=
  [("time", 1%Z); ("x_geostationary", (-1)%Z);
   ("y_geostationary", (-1)%Z); ("variable", 1%Z)].

(** Line 38. *)
Definition mode_for (store_exists : bool) : string :=
  if store_exists then "a" else "w".

(** Lines 39-45. *)
Definition extra_kwargs (mode : string) : dict :=
  if String.eqb mode "a"
  then [("append_dim", PyStr "time")]
  else [("encoding",
         PyDict [("time",
                  PyDict [("units", PyStr "nanoseconds since 1970-01-01")])])].

(** Line 72. *)
Definition write_error (path : string) (e : exn) : exn :=
  OSError_from
    ("Error writing dataset to zarr store " +:+ path +:+ ": " +:+ exn_str e) e.

(** Lines 63-70: the body of the [try]. *)
Definition commit (L : Libs) (fs : FileSystem) (path mode : string)
    (extra : dict) : StE World unit :=
  da <~ gets w_da ;;
  da <~ lift (da_chunk chunk_spec da) ;;
  variable <~ lift (coords_getitem da "variable") ;;
  let da := coords_setitem da "variable" (astype_str L variable) in
  ds <~ lift (to_dataset da "data") ;;
  zarr_call L
    {| call_ds := ds;
       call_store := {| store_fs := fs; store_path := path |};
       call_kwargs :=
         [("compute", PyBool true); ("mode", PyStr mode);
          ("consolidated", PyBool true)] ++ extra |}.

(** [write_to_zarr(da, path)], with [da] the array held in the world and
    [environ] the process environment. *)
Definition write_to_zarr (L : Libs) (environ : gmap string string)
    (path : string) : StE World unit :=
  fs <~ lift (resolve_fs environ path) ;;
  store_exists <~ lift (fs_exists L fs path) ;;
  let mode := mode_for store_exists in
  let extra := extra_kwargs mode in
  normalize_attrs L ;;~
  try_exceptS (commit L fs path mode extra) (write_error path).

(** The world a call starts from. *)
Definition initial (da : DataArray) : World :=
  {| w_da := da; w_calls := [] |}.

End Writer.

(** ** [create_latest_zip] *)

Module Packager.

Abbreviation bytes := (list Byte.byte).

(** The collaborators of the packager.  What a handle opened with
    [fs.open(path, "wb")] does to the files of the backend is the
    business of the filesystem library: [close_handle] gives the files
    once a handle on [path] that has received [written] is closed, and
    the error closing raised, if any. *)
Record Libs : Type := {
  (** [xr.open_zarr(FsspecStore(fs, path), consolidated=True)] *)
  open_zarr : FsspecStore -> result Dataset;
  (** [ds.to_zarr(store=ZipStore(path=fsrc.name, mode="w"))]: the bytes
      the temporary file holds afterwards *)
  zip_store : Dataset -> result bytes;
  (** does the [i]-th [fdst.write] of the copy raise? *)
  write_fault : nat -> option exn;
  (** does [fs.open(path, "wb")] raise? *)
  open_fault : string -> option exn;
  (** leaving the [with] block closes the handle *)
  close_handle : string -> bytes -> gmap string bytes
                 -> option exn * gmap string bytes;
}.

(** A backend whose handles write through: once the handle is closed the
    file holds what the handle received, whatever it held before (a file
    opened for writing, an object stored when the handle is closed). *)
Definition writes_through (P : Libs) : Prop :=
  ∀ path written files,
    close_handle P path written files = (None, <[path := written]> files).

(** A backend whose handles do not reach the file: closing one changes
    nothing. *)
Definition detached (P : Libs) : Prop :=
  ∀ path written files, close_handle P path written files = (None, files).

(** [shutil.COPY_BUFSIZE], used when no block length is given. *)
Definition COPY_BUFSIZE : nat := 64 * 1024.

(** [fs.open(path, "wb")]: a handle, or the error of the backend. *)
Definition open_wb (P : Libs) (path : string) : result unit :=
  match open_fault P path with
  | Some e => Raise e
  | None => Ok tt
  end.

(** [with fs.open(path, "wb") as fdst: body].  The body acts on what the
    handle holds, nothing at first; the handle is closed on every way out
    of the body, and an error raised by closing takes the place of the
    outcome of the body. *)
Definition with_fdst (P : Libs) (path : string)
    (body : StE (gmap string bytes) unit) : StE (gmap string bytes) unit :=
  fun files =>
    match open_wb P path with
    | Raise e => (Raise e, files)
    | Ok _ =>
        let '(r, held) := body {[ path := [] ]} in
        match close_handle P path (default [] (held !! path)) files with
        | (Some e, files') => (Raise e, files')
        | (None, files') => (r, files')
        end
    end.

(** The [i]-th [fdst.write(buf)] on the handle opened on [path]; the
    state is what the handles hold. *)
Definition fdst_write (P : Libs) (i : nat) (path : string) (buf : bytes)
  : StE (gmap string bytes) unit :=
  match write_fault P i with
  | Some e => raise e
  | None =>
      modify (fun files => <[path := default [] (files !! path) ++ buf]> files)
  end.

(** [while buf := fsrc.read(length): fdst.write(buf)], with [src] the
    bytes not yet read and [i] the number of blocks written. *)
Fixpoint copy_loop (fuel : nat) (P : Libs) (length : nat) (src : bytes)
    (i : nat) (dst : string) : StE (gmap string bytes) unit :=
  match fuel with
  | O => ret tt
  | S fuel' =>
      match take length src with
      | [] => ret tt
      | buf =>
          fdst_write P i dst buf ;;~
          copy_loop fuel' P length (drop length src) (S i) dst
      end
  end.

(** [shutil.copyfileobj(fsrc, fdst, length)]: every turn of the loop
    reads at least one byte, so [S (length src)] turns are enough. *)
Definition copyfileobj (P : Libs) (src : bytes) (dst : string) (length : nat)
  : StE (gmap string bytes) unit :=
  let length := if Nat.eqb length 0 then COPY_BUFSIZE else length in
  copy_loop (S (List.length src)) P length src 0 dst.

(** [s.rsplit("/", 1)]: split at the last slash, if there is one. *)
Fixpoint rsplit_last (s : string) : option (string * string) :=
  match s with
  | EmptyString => None
  | String c rest =>
      match rsplit_last rest with
      | Some (before, after) => Some (String c before, after)
      | None =>
          if Ascii.eqb c "/"%char then Some (EmptyString, rest) else None
      end
  end.

Definition rsplit1 (s : string) : list string :=
  match rsplit_last s with
  | Some (before, after) => [before; after]
  | None => [s]
  end.

(** Line 88. *)
Definition zippath_of (zarr_path : string) : string :=
  default EmptyString (head (rsplit1 zarr_path)) +:+ "/latest.zarr.zip".

(** Line 95. *)
Definition zip_error (zippath : string) (e : exn) : exn :=
  OSError_from
    ("Error writing dataset to zip store '" +:+ zippath +:+ "': "
     +:+ exn_str e) e.

(** [create_latest_zip(zarr_path)] over the files of the backend.  The
    [with] statement opens the destination for writing before the body
    runs, and the [try] statement is inside it. *)
Definition create_latest_zip (P : Libs) (environ : gmap string string)
    (zarr_path : string) : StE (gmap string bytes) string :=
  fs <~ lift (resolve_fs environ zarr_path) ;;
  ds <~ lift (open_zarr P {| store_fs := fs; store_path := zarr_path |}) ;;
  let zippath := zippath_of zarr_path in
  with_fdst P zippath
    (try_exceptS
       (staged <~ lift (zip_store P ds) ;;
        copyfileobj P staged zippath (16 * 1024))
       (zip_error zippath)) ;;~
  ret zippath.

End Packager.

(** ** What the design document says, as definitions to compare with *)

Module Spec.

Import Writer.

(** Section 4.1, value by value: a nested mapping becomes its textual
    encoding (of the mapping as the writer hands it to the encoder), a
    boolean its string form, an area definition its dump, a timestamp its
    ISO string; any other value is kept. *)
Definition normalized_value (L : Xr.Libs) (v : pyval) : result pyval :=
  match v with
  | PyDict d =>
      d' <- widen_loop (keys d) d ;;
      text <- yaml_dump L d' ;;
      Ok (PyStr text)
  | PyBool b | PyNpBool b => Ok (PyStr (str_bool b))
  | PyArea a => text <- area_dump L a ;; Ok (PyStr text)
  | PyDatetime d => Ok (PyStr (isoformat L d))
  | _ => Ok v
  end.

(** The same over a mapping, in item order. *)
Fixpoint normalized_items (L : Xr.Libs) (items : dict) : result dict :=
  match items with
  | [] => Ok []
  | (k, v) :: rest =>
      v' <- normalized_value L v ;;
      rest' <- normalized_items L rest ;;
      Ok ((k, v') :: rest')
  end.

(** A value of none of the four kinds the normalizer rewrites. *)
Definition passes_through (v : pyval) : bool :=
  negb (isinstance_dict v || isinstance_bool v
        || isinstance_AreaDefinition v || isinstance_datetime v).

(** Section 4.1 on nested mappings: every direct value that is a numpy
    float is replaced by the Python float it converts to. *)
Definition widened (d : dict) : dict :=
  (λ kv, (kv.1, if isinstance_np_floating kv.2 then py_float kv.2 else kv.2))
    <$> d.

(** The directory that holds the store: the text before the last
    separator of its path and, for a bare name, the current directory. *)
Definition store_parent (path : string) : string :=
  match Packager.rsplit_last path with
  | Some (before, _) => before
  | None => "."
  end.

(** Does a separator occur in [s]? *)
Fixpoint has_slash (s : string) : bool :=
  match s with
  | EmptyString => false
  | String c rest => Ascii.eqb c "/"%char || has_slash rest
  end.

End Spec.

(** ** Concrete collaborators and inputs used in the examples *)

Module Demo.

Import Writer.

(** A flow-style rendering of a mapping, standing in for PyYAML on the
    values it can represent. *)
Fixpoint render (v : pyval) : string :=
  match v with
  | PyNone => "null"
  | PyStr s => s
  | PyInt n => pretty n
  | PyBool b => if b then "true" else "false"
  | PyFloat _ => "<float>"
  | PyDict items =>
      "{" +:+ String.concat ", "
                (map (fun kv => kv.1 +:+ ": " +:+ render kv.2) items) +:+ "}"
  | PyList elems => "[" +:+ String.concat ", " (map render elems) +:+ "]"
  | _ => "<object>"
  end.

(** An encoder that, as the comment on line 49 says of [yaml.dump],
    complains about a numpy float narrower than double precision. *)
Definition strict_yaml_dump (d : dict) : result string :=
  if has_reduced_float (PyDict d)
  then Raise (Exn "RepresenterError" "cannot represent an object" None)
  else Ok (render (PyDict d) +:+ "
").

Definition two_digits (n : nat) : string :=
  if Nat.ltb n 10 then "0" +:+ pretty n else pretty n.

(** [YYYY-MM-DDTHH:MM:SS] for a four-digit year, standing in for
    [datetime.isoformat]. *)
Definition print_datetime (d : datetime) : string :=
  pretty (year d) +:+ "-" +:+ two_digits (month d) +:+ "-"
  +:+ two_digits (day d) +:+ "T" +:+ two_digits (hour d) +:+ ":"
  +:+ two_digits (minute d) +:+ ":" +:+ two_digits (second d).

(** A backend on which no store exists yet and every commit succeeds. *)
Definition fresh_backend : Xr.Libs :=
  {| yaml_dump := strict_yaml_dump;
     area_dump := fun a => Ok ("area_id: " +:+ area_id a);
     isoformat := print_datetime;
     np_str := render;
     fs_exists := fun _ _ => Ok false;
     to_zarr := fun _ => Ok tt |}.

(** The same with a store already at every path. *)
Definition existing_backend : Xr.Libs :=
  {| yaml_dump := strict_yaml_dump;
     area_dump := fun a => Ok ("area_id: " +:+ area_id a);
     isoformat := print_datetime;
     np_str := render;
     fs_exists := fun _ _ => Ok true;
     to_zarr := fun _ => Ok tt |}.

(** A backend that refuses every commit. *)
Definition refusing_backend : Xr.Libs :=
  {| yaml_dump := strict_yaml_dump;
     area_dump := fun a => Ok ("area_id: " +:+ area_id a);
     isoformat := print_datetime;
     np_str := render;
     fs_exists := fun _ _ => Ok false;
     to_zarr := fun _ => Raise (Exn "PermissionError" "Access Denied" None) |}.

Definition one_half : spec_float := S754_finite false 1 (-1).

Definition seviri_area : AreaDefinition :=
  {| area_id := "msg_seviri_rss_3km"; description := "MSG SEVIRI RSS 3km";
     proj_id := "geos"; width := 3712; height := 1392 |}.

Definition scan_time : datetime :=
  {| year := 2023; month := 9; day := 10; hour := 22; minute := 12;
     second := 40; microsecond := 0; utcoffset_minutes := Some 0%Z |}.

(** Attributes of every kind the normalizer tells apart. *)
Definition sample_attrs : dict :=
  [("orbital_parameters",
    PyDict [("satellite_actual_altitude", PyNpFloating float32 one_half);
            ("projection_longitude", PyNpFloating float64 one_half);
            ("name", PyStr "MSG3")]);
   ("calibrated", PyBool true);
   ("masked", PyNpBool false);
   ("area", PyArea seviri_area);
   ("end_time", PyDatetime scan_time);
   ("platform_name", PyStr "Meteosat-10");
   ("sensor_count", PyInt 1);
   ("ancillary", PyList []);
   ("resolution", PyNpFloating float32 one_half)].

(** A reduced-precision float one level further down. *)
Definition deep_attrs : dict :=
  [("orbital_parameters",
    PyDict [("nominal",
             PyDict [("altitude", PyNpFloating float32 one_half)])])].

Definition sample_da (a : dict) : DataArray :=
  {| dims := [("time", 1); ("y_geostationary", 1392);
              ("x_geostationary", 3712); ("variable", 2)];
     chunks := [];
     coords := [("time", IntCoord [1694383960000000000%Z]);
                ("variable", ObjectCoord [PyStr "VIS006"; PyStr "IR_016"])];
     attrs := a |}.

(** An array without a time dimension. *)
Definition flat_da : DataArray :=
  {| dims := [("y_geostationary", 1392); ("x_geostationary", 3712);
              ("variable", 1)];
     chunks := [];
     coords := [("variable", IntCoord [6%Z])];
     attrs := [("platform_name", PyStr "Meteosat-10")] |}.

Definition no_credentials : gmap string string := ∅.

Definition local_store : string := "data/store.zarr".

(** A first write of the sample array to a local path. *)
Definition sample_world : World := initial (sample_da sample_attrs).

Definition sample_run : result unit * World :=
  write_to_zarr fresh_backend no_credentials local_store sample_world.

Definition both_credentials : gmap string string :=
  <["AWS_ACCESS_KEY_ID" := "AKIAEXAMPLE"]>
    (<["AWS_SECRET_ACCESS_KEY" := "s3cr3t"]> ∅).

Definition only_key_id : gmap string string :=
  <["AWS_ACCESS_KEY_ID" := "AKIAEXAMPLE"]> ∅.

Definition only_secret : gmap string string :=
  <["AWS_SECRET_ACCESS_KEY" := "s3cr3t"]> ∅.

(** A store that opens, and the bytes of the archive staged from it. *)
Definition opened_store : Dataset :=
  {| data_vars := [("data", sample_da [])];
     ds_coords := coords (sample_da []);
     ds_attrs := [] |}.

Definition new_archive : Packager.bytes :=
  ["P"; "K"; "003"; "004"; "n"; "e"; "w"; "005"; "006"]%byte.

Definition prior_archive : Packager.bytes :=
  ["P"; "K"; "003"; "004"; "o"; "l"; "d"; "005"; "006"]%byte.

(** Handles that write through to the file. *)
Definition store_on_close (path : string) (written : Packager.bytes)
    (files : gmap string Packager.bytes)
  : option exn * gmap string Packager.bytes :=
  (None, <[path := written]> files).

(** A backend on which every write of the copy goes through. *)
Definition healthy_packager : Packager.Libs :=
  {| Packager.open_zarr := fun _ => Ok opened_store;
     Packager.zip_store := fun _ => Ok new_archive;
     Packager.write_fault := fun _ => None;
     Packager.open_fault := fun _ => None;
     Packager.close_handle := store_on_close |}.

(** A backend whose connection drops when the first block is written. *)
Definition interrupted_packager : Packager.Libs :=
  {| Packager.open_zarr := fun _ => Ok opened_store;
     Packager.zip_store := fun _ => Ok new_archive;
     Packager.write_fault := fun i =>
       if Nat.eqb i 0
       then Some (Exn "ConnectionError" "connection reset by peer" None)
       else None;
     Packager.open_fault := fun _ => None;
     Packager.close_handle := store_on_close |}.

(** The files of a backend that already holds a snapshot. *)
Definition published : gmap string Packager.bytes :=
  {[ "data/latest.zarr.zip" := prior_archive ]}.

End Demo.

(** ** [_fname_to_scantime] *)

Module Scantime.

(** A text is its list of characters, each a code point below 256. *)
Abbreviation text := (list ascii).

(** [s.split(".")[0]]: the text before the first dot, all of it when
    there is none. *)
Fixpoint before_first_dot (s : text) : text :=
  match s with
  | [] => []
  | c :: rest => if Ascii.eqb c "." then [] else c :: before_first_dot rest
  end.

(** [s[-n:]]: the last [n] characters, all of [s] when it is shorter. *)
Definition last_chars (n : nat) (s : text) : text :=
  drop (length s - n) s.

(** A character class [[lo-hi]] of a regular expression. *)
Definition between (lo hi : ascii) (c : ascii) : bool :=
  (nat_of_ascii lo <=? nat_of_ascii c) && (nat_of_ascii c <=? nat_of_ascii hi).

(** [\d], on code points below 256. *)
Definition digit : ascii -> bool := between "0" "9".

(** The regular expressions [_strptime] has for the six directives: each
    is a group of alternatives, tried in the order written, and each
    alternative is a row of character classes. *)
Definition regex_Y : list (list (ascii -> bool)) :=
  [[digit; digit; digit; digit]].
Definition regex_m : list (list (ascii -> bool)) :=
  [[between "1" "1"; between "0" "2"];
   [between "0" "0"; between "1" "9"];
   [between "1" "9"]].
Definition regex_d : list (list (ascii -> bool)) :=
  [[between "3" "3"; between "0" "1"];
   [between "1" "2"; digit];
   [between "0" "0"; between "1" "9"];
   [between "1" "9"];
   [between " " " "; between "1" "9"]].
Definition regex_H : list (list (ascii -> bool)) :=
  [[between "2" "2"; between "0" "3"];
   [between "0" "1"; digit];
   [digit]].
Definition regex_M : list (list (ascii -> bool)) :=
  [[between "0" "5"; digit];
   [digit]].
Definition regex_S : list (list (ascii -> bool)) :=
  [[between "6" "6"; between "0" "1"];
   [between "0" "5"; digit];
   [digit]].

(** The format [%Y%m%d%H%M%S] as a regular expression. *)
Definition format_regex : list (list (list (ascii -> bool))) :=
  [regex_Y; regex_m; regex_d; regex_H; regex_M; regex_S].

(** One alternative against the head of [s]: the text it matches and
    what is left. *)
Fixpoint match_alt (alt : list (ascii -> bool)) (s : text)
  : option (text * text) :=
  match alt with
  | [] => Some ([], s)
  | cls :: alt' =>
      match s with
      | c :: s' =>
          if cls c
          then match match_alt alt' s' with
               | Some (t, r) => Some (c :: t, r)
               | None => None
               end
          else None
      | [] => None
      end
  end.

(** [re.match] for a row of groups: the first way, in the order of the
    alternatives and with backtracking, to match every group in turn;
    the texts of the groups and what is left of [s]. *)
Fixpoint match_groups (groups : list (list (list (ascii -> bool)))) (s : text)
  : option (list text * text) :=
  match groups with
  | [] => Some ([], s)
  | alts :: groups' =>
      (fix try (alts : list (list (ascii -> bool))) : option (list text * text) :=
         match alts with
         | [] => None
         | alt :: alts' =>
             match match_alt alt s with
             | Some (t, r) =>
                 match match_groups groups' r with
                 | Some (ts, e) => Some (t :: ts, e)
                 | None => try alts'
                 end
             | None => try alts'
             end
         end) alts
  end.

(** [int(t)] for the text of a group: decimal digits, after a space that
    [int] strips. *)
Definition int_of_text (t : text) : nat :=
  foldl (fun acc c => if digit c then 10 * acc + (nat_of_ascii c - 48) else acc)
        0 t.

Definition is_leap (y : nat) : bool :=
  (y mod 4 =? 0) && (negb (y mod 100 =? 0) || (y mod 400 =? 0)).

Definition days_in_month (y m : nat) : nat :=
  match m with
  | 2 => if is_leap y then 29 else 28
  | 4 | 6 | 9 | 11 => 30
  | _ => 31
  end.

Definition ValueError (msg : string) : exn := Exn "ValueError" msg None.

(** [datetime.strptime(s, "%Y%m%d%H%M%S")]: the regular expression has to
    match and to use up [s]; the date has to exist ([date(year, month,
    day)]) and the second, which the expression lets be 60 or 61, has to
    be below 60 ([datetime(...)]).  The texts of the errors are
    abridged. *)
Definition strptime_YmdHMS (s : text) : result datetime :=
  match match_groups format_regex s with
  | None => Raise (ValueError "time data does not match format")
  | Some (found, rest) =>
      match rest with
      | _ :: _ =>
          Raise (ValueError ("unconverted data remains: "
                             +:+ String.string_of_list_ascii rest))
      | [] =>
          let field i := int_of_text (nth i found []) in
          if field 0 =? 0
          then Raise (ValueError "year 0 is out of range")
          else if days_in_month (field 0) (field 1) <? field 2
          then Raise (ValueError "day is out of range for month")
          else if 59 <? field 5
          then Raise (ValueError "second must be in 0..59")
          else Ok {| year := field 0; month := field 1; day := field 2;
                     hour := field 3; minute := field 4; second := field 5;
                     microsecond := 0; utcoffset_minutes := None |}
      end
  end.

(** [d.replace(tzinfo=dt.UTC)]. *)
Definition replace_tzinfo_UTC (d : datetime) : datetime :=
  {| year := year d; month := month d; day := day d;
     hour := hour d; minute := minute d; second := second d;
     microsecond := microsecond d; utcoffset_minutes := Some 0%Z |}.

(** [_fname_to_scantime(fname)]. *)
Definition _fname_to_scantime (fname : string) : result datetime :=
  d <- strptime_YmdHMS
         (last_chars 14 (before_first_dot (String.list_ascii_of_string fname))) ;;
  Ok (replace_tzinfo_UTC d).

End Scantime.

(** ** File names of the documented form, and further examples *)

Module Filename.

Import Scantime.

(** The decimal digit for [k] below ten. *)
Definition digit_char (k : nat) : ascii := ascii_of_nat (48 + k).

Definition two_digits (n : nat) : text :=
  [digit_char (n / 10 mod 10); digit_char (n mod 10)].

Definition four_digits (n : nat) : text :=
  [digit_char (n / 1000 mod 10); digit_char (n / 100 mod 10);
   digit_char (n / 10 mod 10); digit_char (n mod 10)].

(** The fourteen characters [YYYYMMDDHHMMSS] of a scan time. *)
Definition stamp (d : datetime) : text :=
  four_digits (year d) ++ two_digits (month d) ++ two_digits (day d)
  ++ two_digits (hour d) ++ two_digits (minute d) ++ two_digits (second d).

(** A date and time of day that exists, without a fraction of a second. *)
Definition valid_scantime (d : datetime) : Prop :=
  1 ≤ year d < 100 * 100 ∧ 1 ≤ month d ≤ 12
  ∧ 1 ≤ day d ≤ days_in_month (year d) (month d)
  ∧ hour d ≤ 23 ∧ minute d ≤ 59 ∧ second d ≤ 59 ∧ microsecond d = 0.

(** Some alternative of the group [alts] matches the whole of [t]. *)
Definition matched_by (alts : list (list (ascii -> bool))) (t : text) : Prop :=
  ∃ alt, alt ∈ alts ∧ Forall2 (λ cls c, cls c = true) alt t.

(** The name in the docstring of [_fname_to_scantime], and its scan
    time. *)
Definition docstring_name : string :=
  "MSGX-SEVI-MSG15-0100-NA-20230910221240.874000000Z-NA.nat".

Definition docstring_time : datetime :=
  {| year := 2023; month := 9; day := 10; hour := 22; minute := 12;
     second := 40; microsecond := 0; utcoffset_minutes := Some 0%Z |}.

(** Attributes whose second value the strict encoder refuses. *)
Definition failing_attrs : dict :=
  [("calibrated", PyBool true);
   ("orbital_parameters",
    PyDict [("nominal",
             PyDict [("altitude", PyNpFloating float32 Demo.one_half)]);
            ("longitude", PyNpFloating float32 Demo.one_half)]);
   ("end_time", PyDatetime Demo.scan_time)].

(** A nested mapping of scalars. *)
Definition flat_parameters : dict :=
  [("satellite_actual_altitude", PyNpFloating float32 Demo.one_half);
   ("projection_longitude", PyNpFloating float64 Demo.one_half);
   ("name", PyStr "MSG3")].

(** A nested mapping with an extended-precision value, [2^53 + 1], which
    no double holds. *)
Definition extended_parameters : dict :=
  [("satellite_actual_altitude",
    PyNpFloating longdouble (S754_finite false 9007199254740993 0));
   ("projection_longitude", PyNpFloating float32 Demo.one_half)].

(** A backend on which the store cannot be opened, and one on which
    staging fails. *)
Definition missing_store : Packager.Libs :=
  {| Packager.open_zarr := fun _ =>
       Raise (Exn "FileNotFoundError" "No such file or directory" None);
     Packager.zip_store := fun _ => Ok Demo.new_archive;
     Packager.write_fault := fun _ => None;
     Packager.open_fault := fun _ => None;
     Packager.close_handle := Demo.store_on_close |}.

Definition failing_stage : Packager.Libs :=
  {| Packager.open_zarr := fun _ => Ok Demo.opened_store;
     Packager.zip_store := fun _ =>
       Raise (Exn "OSError" "No space left on device" None);
     Packager.write_fault := fun _ => None;
     Packager.open_fault := fun _ => None;
     Packager.close_handle := Demo.store_on_close |}.

(** The same on a backend whose handles do not reach the file. *)
Definition failing_stage_detached : Packager.Libs :=
  {| Packager.open_zarr := fun _ => Ok Demo.opened_store;
     Packager.zip_store := fun _ =>
       Raise (Exn "OSError" "No space left on device" None);
     Packager.write_fault := fun _ => None;
     Packager.open_fault := fun _ => None;
     Packager.close_handle := fun _ _ files => (None, files) |}.

(** A healthy copy on a backend whose handles do not reach the file. *)
Definition healthy_detached : Packager.Libs :=
  {| Packager.open_zarr := fun _ => Ok Demo.opened_store;
     Packager.zip_store := fun _ => Ok Demo.new_archive;
     Packager.write_fault := fun _ => None;
     Packager.open_fault := fun _ => None;
     Packager.close_handle := fun _ _ files => (None, files) |}.

(** A backend on which the destination cannot be opened for writing. *)
Definition unwritable_destination : Packager.Libs :=
  {| Packager.open_zarr := fun _ => Ok Demo.opened_store;
     Packager.zip_store := fun _ => Ok Demo.new_archive;
     Packager.write_fault := fun _ => None;
     Packager.open_fault := fun path =>
       Some (Exn "IsADirectoryError"
               ("[Errno 21] Is a directory: '" +:+ path +:+ "'") None);
     Packager.close_handle := Demo.store_on_close |}.

(** A value [yaml.dump] cannot represent: a generator has no reduction
    ([TypeError: cannot pickle 'generator' object]). *)
Fixpoint has_generator (v : pyval) : bool :=
  match v with
  | PyObject cls _ => String.eqb cls "generator"
  | PyDict items => existsb (fun kv => has_generator kv.2) items
  | PyList elems => existsb has_generator elems
  | _ => false
  end.

Definition pickling_yaml_dump (d : dict) : result string :=
  if has_generator (PyDict d)
  then Raise (Exn "TypeError" "cannot pickle 'generator' object" None)
  else Ok (Demo.render (PyDict d) +:+ "
").

Definition pickling_backend : Xr.Libs :=
  {| yaml_dump := pickling_yaml_dump;
     area_dump := fun a => Ok ("area_id: " +:+ area_id a);
     isoformat := Demo.print_datetime;
     np_str := Demo.render;
     fs_exists := fun _ _ => Ok false;
     to_zarr := fun _ => Ok tt |}.

(** Attributes with a generator inside a nested mapping. *)
Definition generator_attrs : dict :=
  [("orbital_parameters",
    PyDict [("positions",
             PyObject "generator" "<generator object <genexpr>>")])].

(** A write of the sample array to a path where a store exists. *)
Definition append_run : result unit * Writer.World :=
  Writer.write_to_zarr Demo.existing_backend Demo.no_credentials
    Demo.local_store Demo.sample_world.

(** An array whose [variable] dimension has no coordinate. *)
Definition bare_da : DataArray :=
  {| dims := [("time", 1); ("y_geostationary", 1392);
              ("x_geostationary", 3712); ("variable", 2)];
     chunks := [];
     coords := [("time", IntCoord [1694383960000000000%Z])];
     attrs := [("platform_name", PyStr "Meteosat-10")] |}.

Definition bare_run : result unit * Writer.World :=
  Writer.write_to_zarr Demo.fresh_backend Demo.no_credentials
    Demo.local_store (Writer.initial bare_da).


End Filename.

(** * Properties *)

(** ** The S3 resolver *)

Lemma append_quote_inj (x y : string) : x +:+ "'" = y +:+ "'" → x = y.
Proof.
  revert y. induction x as [|c x IH]; intros [|d y] H; simpl in H.
  - reflexivity.
  - injection H as _ H. destruct y; discriminate.
  - injection H as _ H. destruct x; discriminate.
  - injection H as -> H. f_equal. by apply IH.
Qed.

(** The error raised for a missing variable tells which one it is. *)
Lemma missing_credential_inj (v1 v2 : string) :
  missing_credential v1 = missing_credential v2 → v1 = v2.
Proof.
  unfold missing_credential, OSError. intros H.
  injection H as H. simpl in H.
  repeat (injection H as H). by apply append_quote_inj.
Qed.

(** C8.  When [AWS_ACCESS_KEY_ID] is unset, [get_s3_fs] raises the
    [OSError] that names [AWS_ACCESS_KEY_ID]; when it is set and
    [AWS_SECRET_ACCESS_KEY] is unset, the [OSError] that names
    [AWS_SECRET_ACCESS_KEY]; the variable named is always one that is
    unset.  When both are set and [AWS_REGION] is unset, the handle is
    built with the two credentials and the region [eu-west-1]. *)
Theorem get_s3_fs_credentials (environ : gmap string string) :
  (environ !! AWS_ACCESS_KEY_ID = None →
     get_s3_fs environ = Raise (missing_credential AWS_ACCESS_KEY_ID)) ∧
  (is_Some (environ !! AWS_ACCESS_KEY_ID) →
   environ !! AWS_SECRET_ACCESS_KEY = None →
     get_s3_fs environ = Raise (missing_credential AWS_SECRET_ACCESS_KEY)) ∧
  (∀ var, get_s3_fs environ = Raise (missing_credential var) →
     environ !! var = None) ∧
  (∀ k s, environ !! AWS_ACCESS_KEY_ID = Some k →
          environ !! AWS_SECRET_ACCESS_KEY = Some s →
          environ !! AWS_REGION = None →
     get_s3_fs environ =
       Ok (S3FS {| anon := false; key := k; secret := s;
                   region_name := "eu-west-1"; asynchronous := true |})).
Proof.
  unfold get_s3_fs, environ_getitem, getenv. cbn [required_vars check_required].
  repeat split.
  - by intros ->.
  - intros [k ->] ->. reflexivity.
  - intros var.
    destruct (environ !! AWS_ACCESS_KEY_ID) as [k|] eqn:Hk; cbn.
    + destruct (environ !! AWS_SECRET_ACCESS_KEY) as [s|] eqn:Hs; cbn.
      * discriminate.
      * intros H.
        assert (var = AWS_SECRET_ACCESS_KEY) as ->; [|done].
        apply missing_credential_inj. congruence.
    + intros H.
      assert (var = AWS_ACCESS_KEY_ID) as ->; [|done].
      apply missing_credential_inj. congruence.
  - intros k s -> -> ->. reflexivity.
Qed.

Lemma get_s3_fs_credentials_witness :
  get_s3_fs Demo.no_credentials
    = Raise (missing_credential AWS_ACCESS_KEY_ID) ∧
  get_s3_fs Demo.only_key_id
    = Raise (missing_credential AWS_SECRET_ACCESS_KEY) ∧
  Demo.only_secret !! AWS_ACCESS_KEY_ID = None ∧
  get_s3_fs Demo.both_credentials =
    Ok (S3FS {| anon := false; key := "AKIAEXAMPLE"; secret := "s3cr3t";
                region_name := "eu-west-1"; asynchronous := true |}).
Proof.
  split; [|split; [|split]].
  - apply (proj1 (get_s3_fs_credentials Demo.no_credentials)).
    reflexivity.
  - apply (proj1 (proj2 (get_s3_fs_credentials Demo.only_key_id))).
    + exists "AKIAEXAMPLE". reflexivity.
    + reflexivity.
  - apply (proj1 (proj2 (proj2 (get_s3_fs_credentials Demo.only_secret)))).
    reflexivity.
  - apply (proj2 (proj2 (proj2 (get_s3_fs_credentials Demo.both_credentials))));
      reflexivity.
Defined.

(** ** The attribute normalizer *)

Section Normalizer.

Import Writer Spec.

Variable L : Xr.Libs.

Lemma set_attrs_id (w : World) : set_attrs w (attrs (w_da w)) = w.
Proof. by destruct w as [[] ?]. Qed.

Lemma set_attrs_twice (w : World) (a b : dict) :
  set_attrs (set_attrs w a) b = set_attrs w b.
Proof. reflexivity. Qed.

Lemma dict_setitem_middle (done rest : dict) (k : string) (v v' : pyval) :
  k ∉ keys done →
  dict_setitem (done ++ (k, v) :: rest) k v' = done ++ (k, v') :: rest.
Proof.
  induction done as [|[k0 v0] done IH]; intros Hk; simpl.
  - by rewrite String.eqb_refl.
  - apply not_elem_of_cons in Hk as [Hne Hk].
    destruct (String.eqb_spec k0 k) as [->|_]; [done|].
    by rewrite IH.
Qed.

Lemma dict_get_middle (done rest : dict) (k : string) (v : pyval) :
  k ∉ keys done → dict_get (done ++ (k, v) :: rest) k = Some v.
Proof.
  induction done as [|[k0 v0] done IH]; intros Hk; simpl.
  - by rewrite String.eqb_refl.
  - apply not_elem_of_cons in Hk as [Hne Hk].
    destruct (String.eqb_spec k0 k) as [->|_]; [done|]. by apply IH.
Qed.

Lemma keys_setitem_present (d : dict) (k : string) (v : pyval) :
  k ∈ keys d → keys (dict_setitem d k v) = keys d.
Proof.
  induction d as [|[k0 v0] d IH]; simpl; intros Hk.
  - by apply elem_of_nil in Hk.
  - destruct (String.eqb_spec k0 k) as [->|Hne]; [done|]. simpl.
    apply elem_of_cons in Hk as [->|Hk]; [done|]. f_equal. by apply IH.
Qed.

Lemma dict_get_is_Some (d : dict) (k : string) :
  k ∈ keys d → is_Some (dict_get d k).
Proof.
  induction d as [|[k0 v0] d IH]; simpl; intros Hk.
  - by apply elem_of_nil in Hk.
  - destruct (String.eqb_spec k0 k) as [->|Hne]; [by eexists|].
    apply elem_of_cons in Hk as [->|Hk]; [done|]. by apply IH.
Qed.

(** The inner loop reads only keys of the mapping it walks, so it never
    raises, and it leaves the keys as they are. *)
Lemma widen_loop_total (inner_keys : list string) :
  ∀ value : dict, inner_keys ⊆ keys value →
    ∃ value', widen_loop inner_keys value = Ok value'
              ∧ keys value' = keys value.
Proof.
  induction inner_keys as [|k ks IH]; intros value Hsub; simpl.
  - by eexists.
  - assert (Hk : k ∈ keys value) by (apply Hsub; left).
    destruct (dict_get_is_Some _ _ Hk) as [v Hv].
    unfold dict_getitem. rewrite Hv. simpl.
    destruct (isinstance_np_floating v).
    + destruct (IH (dict_setitem value k (py_float v))) as (d' & Hd' & Hkeys).
      { rewrite keys_setitem_present by done.
        intros x Hx. apply Hsub. by right. }
      exists d'. split; [done|]. by rewrite Hkeys, keys_setitem_present.
    + apply IH. intros x Hx. apply Hsub. by right.
Qed.

(** One turn of the outer loop against the by-kind table. *)
Lemma normalize_item_spec (key : string) (value : pyval) (done rest : dict)
    (w : World) :
  attrs (w_da w) = done ++ (key, value) :: rest →
  key ∉ keys done →
  match normalized_value L value with
  | Ok v' =>
      normalize_item L key value w
        = (Ok tt, set_attrs w (done ++ (key, v') :: rest))
  | Raise e => ∃ a', normalize_item L key value w = (Raise e, set_attrs w a')
  end.
Proof.
  intros Hattrs Hkey.
  assert (Hsame : (Ok tt, w) = (Ok tt, set_attrs w (done ++ (key, value) :: rest))).
  { by rewrite <- Hattrs, set_attrs_id. }
  destruct value; try exact Hsame; clear Hsame;
    unfold normalize_item, normalize_dict, attrs_setitem, bindS, lift, modify,
      ret; simpl.
  - by rewrite Hattrs, dict_setitem_middle.
  - by rewrite Hattrs, dict_setitem_middle.
  - destruct (widen_loop (keys items) items) as [d'|e]; simpl.
    + rewrite Hattrs, dict_setitem_middle by done.
      destruct (yaml_dump L d') as [text|e]; simpl.
      * by rewrite dict_setitem_middle.
      * by eexists.
    + exists (attrs (w_da w)). by rewrite set_attrs_id.
  - destruct (area_dump L a) as [text|e]; simpl.
    + by rewrite Hattrs, dict_setitem_middle.
    + exists (attrs (w_da w)). by rewrite set_attrs_id.
  - by rewrite Hattrs, dict_setitem_middle.
Qed.

Lemma normalize_loop_step (key : string) (value : pyval) (rest : dict)
    (w w1 : World) :
  normalize_item L key value w = (Ok tt, w1) →
  normalize_loop L ((key, value) :: rest) w = normalize_loop L rest w1.
Proof. intros H. cbn [normalize_loop]. unfold bindS. by rewrite H. Qed.

Lemma normalize_loop_stop (key : string) (value : pyval) (rest : dict)
    (w w1 : World) (e : exn) :
  normalize_item L key value w = (Raise e, w1) →
  normalize_loop L ((key, value) :: rest) w = (Raise e, w1).
Proof. intros H. cbn [normalize_loop]. unfold bindS. by rewrite H. Qed.

(** The loop refines the by-kind table applied item by item. *)
Lemma normalize_loop_spec (items : dict) :
  ∀ (done : dict) (w : World),
    attrs (w_da w) = done ++ items →
    NoDup (keys (done ++ items)) →
    match normalized_items L items with
    | Ok items' =>
        normalize_loop L items w = (Ok tt, set_attrs w (done ++ items'))
    | Raise e => ∃ a', normalize_loop L items w = (Raise e, set_attrs w a')
    end.
Proof.
  induction items as [|[key value] rest IH]; intros done w Hattrs Hnd.
  - simpl. unfold ret. by rewrite <- Hattrs, set_attrs_id.
  - assert (Hkey : key ∉ keys done).
    { unfold keys in *. rewrite fmap_app in Hnd.
      apply NoDup_app in Hnd as (_ & Hdis & _).
      intros Hin. apply (Hdis _ Hin). simpl. left. }
    pose proof (normalize_item_spec key value done rest w Hattrs Hkey) as Hitem.
    cbn [normalized_items].
    destruct (normalized_value L value) as [v'|e]; cbn [Py.bind].
    + rewrite (normalize_loop_step _ _ _ _ _ Hitem).
      specialize (IH (done ++ [(key, v')])
                    (set_attrs w (done ++ (key, v') :: rest))).
      rewrite <- !app_assoc in IH. cbn [app] in IH.
      assert (Hnd' : NoDup (keys (done ++ (key, v') :: rest))).
      { unfold keys in *. by rewrite fmap_app in *. }
      specialize (IH eq_refl Hnd').
      destruct (normalized_items L rest) as [rest'|e]; cbn [Py.bind].
      * rewrite IH, set_attrs_twice. by rewrite <- app_assoc.
      * destruct IH as [a' IH]. exists a'. by rewrite IH, set_attrs_twice.
    + destruct Hitem as [a' Hitem]. exists a'.
      by apply normalize_loop_stop.
Qed.

Lemma normalize_attrs_unfold (w : World) :
  normalize_attrs L w = normalize_loop L (attrs (w_da w)) w.
Proof. reflexivity. Qed.

Lemma normalized_items_lookup (items : dict) :
  ∀ items', normalized_items L items = Ok items' →
    keys items' = keys items ∧
    ∀ key value, dict_get items key = Some value →
      ∃ v', normalized_value L value = Ok v' ∧ dict_get items' key = Some v'.
Proof.
  induction items as [|[k v] rest IH]; intros items' H; cbn in H.
  - injection H as <-. split; [done|]. intros ? ? [=].
  - destruct (normalized_value L v) as [v'|] eqn:Hv; [|done]. cbn in H.
    destruct (normalized_items L rest) as [rest'|] eqn:Hrest; [|done].
    cbn in H. injection H as <-.
    destruct (IH rest' eq_refl) as [Hkeys Hget].
    split; [cbn; by f_equal|].
    intros key value. cbn.
    destruct (String.eqb k key); [|by apply Hget].
    intros [= <-]. by exists v'.
Qed.

Lemma normalized_items_Raise (items : dict) (e : exn) :
  normalized_items L items = Raise e →
  ∃ key value, (key, value) ∈ items ∧ normalized_value L value = Raise e.
Proof.
  induction items as [|[k v] rest IH]; cbn; [done|].
  destruct (normalized_value L v) as [v'|e'] eqn:Hv; cbn.
  - destruct (normalized_items L rest) as [rest'|e'']; cbn; [done|].
    intros [= ->]. destruct (IH eq_refl) as (key & value & Hin & Hr).
    exists key, value. split; [by right|done].
  - intros [= ->]. exists k, v. split; [left|done].
Qed.

(** What the table produces is not rewritten again. *)
Lemma normalized_value_passes (v v' : pyval) :
  normalized_value L v = Ok v' → passes_through v' = true.
Proof.
  destruct v; cbn; try (intros [= <-]; reflexivity).
  - destruct (widen_loop (keys items) items); cbn; [|done].
    destruct (yaml_dump L a); cbn; [|done]. by intros [= <-].
  - destruct (area_dump L a); cbn; [|done]. by intros [= <-].
Qed.

Lemma normalized_items_passes (items items' : dict) :
  normalized_items L items = Ok items' →
  Forall (λ kv, passes_through kv.2 = true) items'.
Proof.
  revert items'. induction items as [|[k v] rest IH]; intros items'; cbn.
  - by intros [= <-].
  - destruct (normalized_value L v) as [v'|] eqn:Hv; [|done]. cbn.
    destruct (normalized_items L rest) as [rest'|]; [|done]. cbn.
    intros [= <-]. constructor; [by eapply normalized_value_passes|by apply IH].
Qed.

Lemma normalized_items_fixed (items : dict) :
  Forall (λ kv, passes_through kv.2 = true) items →
  normalized_items L items = Ok items.
Proof.
  induction 1 as [|[k v] rest Hv _ IH]; [done|]. cbn.
  assert (normalized_value L v = Ok v) as ->.
  { cbn in Hv. by destruct v. }
  cbn. by rewrite IH.
Qed.

(** Values that pass through leave the mapping, and the world, as they
    are. *)
Lemma normalize_attrs_fixed (w : World) :
  NoDup (keys (attrs (w_da w))) →
  Forall (λ kv, passes_through kv.2 = true) (attrs (w_da w)) →
  normalize_attrs L w = (Ok tt, w).
Proof.
  intros Hnd Hall. rewrite normalize_attrs_unfold.
  pose proof (normalize_loop_spec (attrs (w_da w)) [] w eq_refl Hnd) as H.
  rewrite (normalized_items_fixed _ Hall) in H. cbn [app] in H.
  by rewrite H, set_attrs_id.
Qed.

(** Only the attribute mapping of the world is ever touched. *)
Lemma normalize_item_frame (key : string) (value : pyval) (w w' : World)
    (r : result unit) :
  normalize_item L key value w = (r, w') → ∃ a', w' = set_attrs w a'.
Proof.
  assert (Hid : ∀ r0 : result unit, (r0, w) = (r, w') → ∃ a', w' = set_attrs w a').
  { intros r0 [= _ <-]. exists (attrs (w_da w)). by rewrite set_attrs_id. }
  destruct value; try apply Hid;
    unfold normalize_item, normalize_dict, attrs_setitem, bindS, lift, modify,
      ret; simpl.
  - intros [= _ <-]. by eexists.
  - intros [= _ <-]. by eexists.
  - destruct (widen_loop (keys items) items) as [d'|e]; simpl; [|apply Hid].
    destruct (yaml_dump L d') as [text|e]; simpl; intros [= _ <-]; by eexists.
  - destruct (area_dump L a) as [text|e]; simpl; [|apply Hid].
    intros [= _ <-]. by eexists.
  - intros [= _ <-]. by eexists.
Qed.

Lemma normalize_loop_frame (items : dict) :
  ∀ (w w' : World) (r : result unit),
    normalize_loop L items w = (r, w') → ∃ a', w' = set_attrs w a'.
Proof.
  induction items as [|[key value] rest IH]; intros w w' r.
  - cbn. intros [= _ <-]. exists (attrs (w_da w)). by rewrite set_attrs_id.
  - cbn [normalize_loop]. unfold bindS.
    destruct (normalize_item L key value w) as [[[]|e] w1] eqn:Hitem.
    + intros Hrest. apply normalize_item_frame in Hitem as [a1 ->].
      apply IH in Hrest as [a' ->]. by exists a'.
    + intros [= _ <-]. by eapply normalize_item_frame.
Qed.

Lemma normalize_attrs_frame (w w' : World) (r : result unit) :
  normalize_attrs L w = (r, w') → ∃ a', w' = set_attrs w a'.
Proof. rewrite normalize_attrs_unfold. apply normalize_loop_frame. Qed.

(** On a mapping without repeated keys, the inner loop replaces exactly
    the direct values that are numpy floats. *)
Lemma widen_loop_direct (rest : dict) :
  ∀ seen : dict, NoDup (keys (seen ++ rest)) →
    widen_loop (keys rest) (seen ++ rest) = Ok (seen ++ widened rest).
Proof.
  induction rest as [|[k v] rest IH]; intros seen Hnd.
  { cbn. by rewrite app_nil_r. }
  assert (Hk : k ∉ keys seen).
  { unfold keys in *. rewrite fmap_app in Hnd.
    apply NoDup_app in Hnd as (_ & Hdis & _).
    intros Hin. apply (Hdis _ Hin). simpl. left. }
  cbn [keys fmap list_fmap fst widen_loop]. unfold dict_getitem.
  rewrite dict_get_middle by done. cbn [Py.bind].
  unfold widened. cbn [fmap list_fmap fst snd].
  destruct (isinstance_np_floating v).
  - rewrite dict_setitem_middle by done.
    specialize (IH (seen ++ [(k, py_float v)])).
    rewrite <- !app_assoc in IH. cbn [app] in IH. apply IH.
    unfold keys in *. by rewrite fmap_app in *.
  - specialize (IH (seen ++ [(k, v)])).
    rewrite <- !app_assoc in IH. cbn [app] in IH. apply IH.
    unfold keys in *. by rewrite fmap_app in *.
Qed.

(** C3.  On a mapping without repeated keys, a run of the normalizer
    that completes keeps the keys and rewrites each value by kind: a
    nested mapping becomes the text [yaml.dump] gives for it, a [bool] or
    [np.bool_] its [str], an area definition its [dump()], a datetime its
    [isoformat()], and a value of any other kind stays as it is.  A run
    that raises does so with the error of [yaml.dump] on a nested mapping
    or of [dump()] on an area definition, never because of a value of
    another kind; a mapping holding only such values comes back unchanged
    without an error. *)
Theorem normalize_attrs_by_kind (w : World) :
  NoDup (keys (attrs (w_da w))) →
  (∀ w', normalize_attrs L w = (Ok tt, w') →
     keys (attrs (w_da w')) = keys (attrs (w_da w)) ∧
     ∀ key value, dict_get (attrs (w_da w)) key = Some value →
       match value with
       | PyDict d =>
           ∃ d' text, widen_loop (keys d) d = Ok d' ∧
                      yaml_dump L d' = Ok text ∧
                      dict_get (attrs (w_da w')) key = Some (PyStr text)
       | PyBool b | PyNpBool b =>
           dict_get (attrs (w_da w')) key = Some (PyStr (str_bool b))
       | PyArea a =>
           ∃ text, area_dump L a = Ok text ∧
                   dict_get (attrs (w_da w')) key = Some (PyStr text)
       | PyDatetime d =>
           dict_get (attrs (w_da w')) key = Some (PyStr (isoformat L d))
       | _ => dict_get (attrs (w_da w')) key = Some value
       end) ∧
  (∀ e w', normalize_attrs L w = (Raise e, w') →
     ∃ key value, (key, value) ∈ attrs (w_da w) ∧
       match value with
       | PyDict d =>
           ∃ d', widen_loop (keys d) d = Ok d' ∧ yaml_dump L d' = Raise e
       | PyArea a => area_dump L a = Raise e
       | _ => False
       end) ∧
  (Forall (λ kv, passes_through kv.2 = true) (attrs (w_da w)) →
     normalize_attrs L w = (Ok tt, w)).
Proof.
  intros Hnd.
  pose proof (normalize_loop_spec (attrs (w_da w)) [] w eq_refl Hnd) as Hspec.
  rewrite <- normalize_attrs_unfold in Hspec. cbn [app] in Hspec.
  split; [|split].
  - intros w' Hrun.
    destruct (normalized_items L (attrs (w_da w))) as [items'|e] eqn:Hitems.
    2:{ destruct Hspec as [a' Hspec]. congruence. }
    assert (w' = set_attrs w items') as -> by congruence.
    destruct (normalized_items_lookup _ _ Hitems) as [Hkeys Hget].
    split; [exact Hkeys|].
    intros key value Hvalue.
    destruct (Hget key value Hvalue) as (v' & Hv' & Hget').
    cbn [set_attrs attrs w_da].
    destruct value; cbn in Hv'; try (injection Hv' as <-; exact Hget').
    + destruct (widen_loop (keys items) items) as [d'|] eqn:Hd'; [|done].
      cbn in Hv'. destruct (yaml_dump L d') as [text|] eqn:Ht; [|done].
      cbn in Hv'. injection Hv' as <-. by exists d', text.
    + destruct (area_dump L a) as [text|] eqn:Ht; [|done].
      cbn in Hv'. injection Hv' as <-. by exists text.
  - intros e w' Hrun.
    destruct (normalized_items L (attrs (w_da w))) as [items'|e'] eqn:Hitems.
    1:{ congruence. }
    destruct Hspec as [a' Hspec].
    assert (e' = e) as -> by congruence.
    destruct (normalized_items_Raise _ _ Hitems) as (key & value & Hin & Hr).
    exists key, value. split; [exact Hin|].
    destruct value; cbn in Hr; try discriminate.
    + destruct (widen_loop_total (keys items) items) as (d' & Hd' & _); [done|].
      rewrite Hd' in Hr. cbn in Hr.
      destruct (yaml_dump L d') as [text|e''] eqn:Ht; [done|].
      cbn in Hr. exists d'. split; [done|]. congruence.
    + destruct (area_dump L a) as [text|e''] eqn:Ht; [done|].
      cbn in Hr. congruence.
  - by apply normalize_attrs_fixed.
Qed.

(** C4.  On a mapping without repeated keys, normalizing what a completed
    run of the normalizer left behind changes nothing and raises
    nothing, whatever kinds of values the mapping held. *)
Theorem normalize_attrs_idempotent (w w' : World) :
  NoDup (keys (attrs (w_da w))) →
  normalize_attrs L w = (Ok tt, w') →
  normalize_attrs L w' = (Ok tt, w').
Proof.
  intros Hnd Hrun.
  pose proof (normalize_loop_spec (attrs (w_da w)) [] w eq_refl Hnd) as Hspec.
  rewrite <- normalize_attrs_unfold in Hspec. cbn [app] in Hspec.
  destruct (normalized_items L (attrs (w_da w))) as [items'|e] eqn:Hitems.
  2:{ destruct Hspec as [a' Hspec]. congruence. }
  assert (w' = set_attrs w items') as -> by congruence.
  apply normalize_attrs_fixed; cbn [set_attrs attrs w_da].
  - destruct (normalized_items_lookup _ _ Hitems) as [-> _]. exact Hnd.
  - by eapply normalized_items_passes.
Qed.

End Normalizer.

Lemma sample_attrs_NoDup : NoDup (keys Demo.sample_attrs).
Proof. apply (bool_decide_unpack _). vm_compute. reflexivity. Defined.

Lemma normalize_attrs_by_kind_witness :
  let w := Writer.initial (Demo.sample_da Demo.sample_attrs) in
  let a' := attrs (Writer.w_da (Writer.normalize_attrs Demo.fresh_backend w).2) in
  dict_get a' "calibrated" = Some (PyStr "True") ∧
  dict_get a' "masked" = Some (PyStr "False") ∧
  dict_get a' "end_time" = Some (PyStr "2023-09-10T22:12:40") ∧
  dict_get a' "sensor_count" = Some (PyInt 1).
Proof.
  intros w a'.
  destruct (normalize_attrs_by_kind Demo.fresh_backend w sample_attrs_NoDup)
    as [Hok _].
  assert (Hrun : Writer.normalize_attrs Demo.fresh_backend w
                 = (Ok tt, (Writer.normalize_attrs Demo.fresh_backend w).2)).
  { vm_compute. reflexivity. }
  destruct (Hok _ Hrun) as [_ Hget].
  split; [|split; [|split]].
  - exact (Hget "calibrated" (PyBool true) eq_refl).
  - exact (Hget "masked" (PyNpBool false) eq_refl).
  - exact (Hget "end_time" (PyDatetime Demo.scan_time) eq_refl).
  - exact (Hget "sensor_count" (PyInt 1) eq_refl).
Defined.

Lemma normalize_attrs_idempotent_witness :
  let w := Writer.initial (Demo.sample_da Demo.sample_attrs) in
  let w' := (Writer.normalize_attrs Demo.fresh_backend w).2 in
  Writer.normalize_attrs Demo.fresh_backend w' = (Ok tt, w').
Proof.
  intros w w'.
  apply (normalize_attrs_idempotent Demo.fresh_backend w w').
  - exact sample_attrs_NoDup.
  - vm_compute. reflexivity.
Defined.

(** ** The store writer *)

Section StoreWriter.

Import Writer Spec.

Variable L : Xr.Libs.
Variable environ : gmap string string.
Variable path : string.

Lemma assoc_get_set {V} (l : list (string * V)) (k k' : string) (v : V) :
  assoc_get (assoc_set l k v) k'
  = if String.eqb k k' then Some v else assoc_get l k'.
Proof.
  induction l as [|[k0 v0] l IH]; simpl.
  - destruct (String.eqb k k'); reflexivity.
  - destruct (String.eqb_spec k0 k) as [->|Hne]; simpl.
    + destruct (String.eqb k k'); reflexivity.
    + rewrite IH. destruct (String.eqb_spec k0 k') as [->|_]; [|done].
      by destruct (String.eqb_spec k k') as [->|_].
Qed.

(** The block under [try], step by step: either it stops before the
    backend is called, with the error of the step that failed, or the
    backend receives one call and its answer is the outcome. *)
Lemma commit_run (fs : FileSystem) (mode : string) (extra : dict)
    (w w' : World) (r : result unit) :
  commit L fs path mode extra w = (r, w') →
  (w' = w ∧
   ∃ cause, r = Raise cause ∧
     (da_chunk chunk_spec (w_da w) = Raise cause
      ∨ (∃ da1, da_chunk chunk_spec (w_da w) = Ok da1
                ∧ coords_getitem da1 "variable" = Raise cause)
      ∨ (∃ da1 variable,
           da_chunk chunk_spec (w_da w) = Ok da1
           ∧ coords_getitem da1 "variable" = Ok variable
           ∧ to_dataset (coords_setitem da1 "variable" (astype_str L variable))
               "data" = Raise cause)))
  ∨ (∃ da1 variable ds,
       da_chunk chunk_spec (w_da w) = Ok da1
       ∧ coords_getitem da1 "variable" = Ok variable
       ∧ to_dataset (coords_setitem da1 "variable" (astype_str L variable))
           "data" = Ok ds
       ∧ let c := {| call_ds := ds;
                     call_store := {| store_fs := fs; store_path := path |};
                     call_kwargs :=
                       [("compute", PyBool true); ("mode", PyStr mode);
                        ("consolidated", PyBool true)] ++ extra |} in
         r = to_zarr L c
         ∧ w' = {| w_da := w_da w; w_calls := w_calls w ++ [c] |}).
Proof.
  unfold commit, bindS, gets, lift, zarr_call.
  destruct (da_chunk chunk_spec (w_da w)) as [da1|e] eqn:Hchunk.
  2:{ intros [= <- <-]. left. split; [done|]. exists e. split; [done|]. by left. }
  destruct (coords_getitem da1 "variable") as [variable|e] eqn:Hvar.
  2:{ intros [= <- <-]. left. split; [done|]. exists e. split; [done|].
      right; left. by exists da1. }
  destruct (to_dataset _ "data") as [ds|e] eqn:Hds.
  2:{ intros [= <- <-]. left. split; [done|]. exists e. split; [done|].
      right; right. by exists da1, variable. }
  intros [= <- <-]. right. by exists da1, variable, ds.
Qed.

(** The whole call, step by step. *)
Lemma write_to_zarr_run (w w' : World) (r : result unit) :
  write_to_zarr L environ path w = (r, w') →
  (w' = w ∧ ∃ e, resolve_fs environ path = Raise e ∧ r = Raise e)
  ∨ (∃ fs, resolve_fs environ path = Ok fs ∧
       ((w' = w ∧ ∃ e, fs_exists L fs path = Raise e ∧ r = Raise e)
        ∨ ∃ ex, fs_exists L fs path = Ok ex ∧
            ((∃ e, normalize_attrs L w = (Raise e, w') ∧ r = Raise e)
             ∨ ∃ w1 r1, normalize_attrs L w = (Ok tt, w1) ∧
                 commit L fs path (mode_for ex) (extra_kwargs (mode_for ex)) w1
                   = (r1, w') ∧
                 r = try_except r1 (write_error path)))).
Proof.
  unfold write_to_zarr, bindS, lift, try_exceptS.
  destruct (resolve_fs environ path) as [fs|e] eqn:Hfs.
  2:{ intros [= <- <-]. left. split; [done|]. by exists e. }
  intros H. right. exists fs. split; [done|].
  destruct (fs_exists L fs path) as [ex|e] eqn:Hex.
  2:{ injection H as <- <-. left. split; [done|]. by exists e. }
  right. exists ex. split; [done|].
  destruct (normalize_attrs L w) as [[[]|e] w1] eqn:Hnorm.
  2:{ injection H as <- <-. left. by exists e. }
  right.
  destruct (commit L fs path (mode_for ex) (extra_kwargs (mode_for ex)) w1)
    as [[[]|e] w2] eqn:Hcommit; injection H as <- <-.
  - by exists w1, (Ok tt).
  - by exists w1, (Raise e).
Qed.

Lemma not_self_snoc {A} (l : list A) (x : A) : l ≠ l ++ [x].
Proof.
  intros H. apply (f_equal length) in H. rewrite length_app in H.
  simpl in H. lia.
Qed.

(** The one call the backend can receive from [write_to_zarr], with the
    steps that led to it. *)
Lemma write_to_zarr_call (w w' : World) (r : result unit) (c : ToZarrCall) :
  write_to_zarr L environ path w = (r, w') →
  w_calls w' = w_calls w ++ [c] →
  ∃ fs ex w1 da1 variable ds,
    resolve_fs environ path = Ok fs
    ∧ fs_exists L fs path = Ok ex
    ∧ normalize_attrs L w = (Ok tt, w1)
    ∧ da_chunk chunk_spec (w_da w1) = Ok da1
    ∧ coords_getitem da1 "variable" = Ok variable
    ∧ to_dataset (coords_setitem da1 "variable" (astype_str L variable)) "data"
        = Ok ds
    ∧ c = {| call_ds := ds;
             call_store := {| store_fs := fs; store_path := path |};
             call_kwargs :=
               [("compute", PyBool true); ("mode", PyStr (mode_for ex));
                ("consolidated", PyBool true)]
               ++ extra_kwargs (mode_for ex) |}.
Proof.
  intros Hrun Hcalls.
  apply write_to_zarr_run in Hrun
    as [[-> _]|(fs & Hfs & [[-> _]|(ex & Hex & [(e & Hn & _)|(w1 & r1 & Hn & Hc & _)])])].
  - by apply not_self_snoc in Hcalls.
  - by apply not_self_snoc in Hcalls.
  - apply normalize_attrs_frame in Hn as [a' ->].
    by apply not_self_snoc in Hcalls.
  - pose proof (normalize_attrs_frame _ _ _ _ Hn) as [a' ->].
    apply commit_run in Hc
      as [[-> _]|(da1 & variable & ds & Hchunk & Hvar & Hds & _ & ->)].
    + by apply not_self_snoc in Hcalls.
    + cbn [w_calls set_attrs] in Hcalls.
      apply app_inj_tail in Hcalls as [_ <-].
      by exists fs, ex, (set_attrs w a'), da1, variable, ds.
Qed.

(** C2 (as the code has it).  Once the backend is resolved and the
    existence check has answered, an error raised by attribute
    normalization leaves [write_to_zarr] as it is, while an error raised
    in the block under [try] (chunking, the coordinate cast, the
    conversion to a dataset, the commit) leaves it as an [OSError] whose
    text holds the path and the text of the cause and whose cause is that
    error. *)
Theorem write_to_zarr_failures (w : World) (fs : FileSystem) (ex : bool) :
  resolve_fs environ path = Ok fs →
  fs_exists L fs path = Ok ex →
  (∀ e w1, normalize_attrs L w = (Raise e, w1) →
     write_to_zarr L environ path w = (Raise e, w1)) ∧
  (∀ w1 cause w2,
     normalize_attrs L w = (Ok tt, w1) →
     commit L fs path (mode_for ex) (extra_kwargs (mode_for ex)) w1
       = (Raise cause, w2) →
     ∃ e, write_to_zarr L environ path w = (Raise e, w2)
          ∧ exn_cls e = "OSError"
          ∧ exn_str e = "Error writing dataset to zarr store " +:+ path
                        +:+ ": " +:+ exn_str cause
          ∧ exn_cause e = Some cause).
Proof.
  intros Hfs Hex. unfold write_to_zarr, bindS, lift, try_exceptS.
  rewrite Hfs, Hex. split.
  - intros e w1 ->. reflexivity.
  - intros w1 cause w2 -> ->. by eexists.
Qed.

(** When the backend is resolved, the existence check has answered, the
    attributes are normalized, the array has the four dimensions of
    line 64 and no coordinate named [data], the block under [try] gets as
    far as the backend: it receives one call, and its answer decides the
    outcome. *)
Lemma write_to_zarr_reaches_backend (w w1 : World) (fs : FileSystem)
    (ex : bool) :
  resolve_fs environ path = Ok fs →
  fs_exists L fs path = Ok ex →
  normalize_attrs L w = (Ok tt, w1) →
  Forall (λ dim, is_Some (assoc_get (dims (w_da w)) dim)) chunk_spec.*1 →
  assoc_get (coords (w_da w)) "data" = None →
  ∃ c, write_to_zarr L environ path w
       = (try_except (to_zarr L c) (write_error path),
          {| w_da := w_da w1; w_calls := w_calls w ++ [c] |})
       ∧ call_store c = {| store_fs := fs; store_path := path |}
       ∧ call_kwargs c
         = [("compute", PyBool true); ("mode", PyStr (mode_for ex));
            ("consolidated", PyBool true)] ++ extra_kwargs (mode_for ex).
Proof.
  intros Hfs Hex Hn Hdims Hdata.
  pose proof (normalize_attrs_frame _ _ _ _ Hn) as [a' ->].
  unfold write_to_zarr, bindS, lift, try_exceptS. rewrite Hfs, Hex, Hn.
  unfold commit, bindS, gets, lift, zarr_call, da_chunk.
  cbn [set_attrs w_da dims].
  assert (forallb (λ kv : string * Z,
            bool_decide (is_Some (assoc_get (dims (w_da w)) kv.1)))
            chunk_spec = true) as ->.
  { apply forallb_forall. intros kv Hkv. apply bool_decide_eq_true_2.
    rewrite List.Forall_forall in Hdims. apply Hdims.
    apply List.in_map_iff. by exists kv. }
  assert (Hvariable : is_Some (assoc_get (dims (w_da w)) "variable")).
  { rewrite List.Forall_forall in Hdims. apply Hdims. cbn. tauto. }
  destruct Hvariable as [n Hn'].
  unfold coords_getitem. cbn [coords dims]. rewrite Hn'.
  destruct (assoc_get (coords (w_da w)) "variable") as [c0|];
    unfold to_dataset; cbn [coords_setitem coords];
    rewrite assoc_get_set, Hdata; cbn;
    (destruct (to_zarr L _) eqn:Hz; eexists; rewrite Hz; cbn;
     (split; [reflexivity|]); split; reflexivity).
Qed.

(** C6.  The call the backend receives carries mode [a] exactly when
    [fs.exists(path)] answered true and mode [w] otherwise; with mode [w]
    it carries the encoding of [time] in nanoseconds since 1970-01-01 and
    no [append_dim]; with mode [a] it carries [append_dim="time"] and no
    encoding.  And the backend does receive that call, once, with its
    answer deciding the outcome, whenever the steps before it go through:
    the backend resolved, the existence check answered, the attributes
    normalized, an array with the four dimensions of line 64 and no
    coordinate named [data]. *)
Theorem write_to_zarr_mode (w w' : World) (r : result unit) :
  write_to_zarr L environ path w = (r, w') →
  (∀ c, w_calls w' = w_calls w ++ [c] →
     ∃ fs ex,
       resolve_fs environ path = Ok fs
       ∧ fs_exists L fs path = Ok ex
       ∧ call_store c = {| store_fs := fs; store_path := path |}
       ∧ dict_get (call_kwargs c) "mode"
         = Some (PyStr (if ex then "a" else "w"))
       ∧ (if ex
          then dict_get (call_kwargs c) "append_dim" = Some (PyStr "time")
               ∧ dict_get (call_kwargs c) "encoding" = None
          else dict_get (call_kwargs c) "encoding"
                 = Some (PyDict
                           [("time",
                             PyDict [("units",
                                      PyStr "nanoseconds since 1970-01-01")])])
               ∧ dict_get (call_kwargs c) "append_dim" = None))
  ∧ (∀ fs ex w1,
       resolve_fs environ path = Ok fs →
       fs_exists L fs path = Ok ex →
       normalize_attrs L w = (Ok tt, w1) →
       Forall (λ dim, is_Some (assoc_get (dims (w_da w)) dim))
         ["time"; "x_geostationary"; "y_geostationary"; "variable"] →
       assoc_get (coords (w_da w)) "data" = None →
       ∃ c, w_calls w' = w_calls w ++ [c]
            ∧ r = try_except (to_zarr L c) (write_error path)
            ∧ dict_get (call_kwargs c) "mode"
              = Some (PyStr (if ex then "a" else "w"))
            ∧ dict_get (call_kwargs c) "append_dim"
              = (if ex then Some (PyStr "time") else None)
            ∧ dict_get (call_kwargs c) "encoding"
              = (if ex then None
                 else Some (PyDict
                              [("time",
                                PyDict [("units",
                                         PyStr "nanoseconds since 1970-01-01")])]))).
Proof.
  intros Hrun. split.
  - intros c Hcalls.
    destruct (write_to_zarr_call _ _ _ _ Hrun Hcalls)
      as (fs & ex & w1 & da1 & variable & ds & Hfs & Hex & _ & _ & _ & _ & ->).
    exists fs, ex. repeat (split; [done|]). by destruct ex.
  - intros fs ex w1 Hfs Hex Hn Hdims Hdata.
    destruct (write_to_zarr_reaches_backend w w1 fs ex Hfs Hex Hn Hdims Hdata)
      as (c & Hc & _ & Hkw).
    rewrite Hc in Hrun. injection Hrun as <- <-.
    exists c. split; [done|]. split; [done|]. rewrite Hkw.
    by destruct ex.
Qed.


(** C10.  In the call the backend receives, the [variable] coordinate of
    the dataset and of its data variable holds strings: the strings of
    the [variable] coordinate of the array passed in, whatever its dtype,
    or, when that dimension has no coordinate, of its default index.  And
    the backend does receive that call whenever the steps before it go
    through. *)
Theorem write_to_zarr_variable_str (w w' : World) (r : result unit) :
  write_to_zarr L environ path w = (r, w') →
  (∀ c, w_calls w' = w_calls w ++ [c] →
     ∃ n before values da,
       assoc_get (dims (w_da w)) "variable" = Some n
       ∧ before = default (default_index n)
                    (assoc_get (coords (w_da w)) "variable")
       ∧ values = match before with
                  | StrCoord vs => vs
                  | IntCoord vs => pretty <$> vs
                  | ObjectCoord vs => np_str L <$> vs
                  end
       ∧ assoc_get (ds_coords (call_ds c)) "variable" = Some (StrCoord values)
       ∧ data_vars (call_ds c) = [("data", da)]
       ∧ assoc_get (coords da) "variable" = Some (StrCoord values))
  ∧ (∀ fs ex w1,
       resolve_fs environ path = Ok fs →
       fs_exists L fs path = Ok ex →
       normalize_attrs L w = (Ok tt, w1) →
       Forall (λ dim, is_Some (assoc_get (dims (w_da w)) dim))
         ["time"; "x_geostationary"; "y_geostationary"; "variable"] →
       assoc_get (coords (w_da w)) "data" = None →
       ∃ c, w_calls w' = w_calls w ++ [c]
            ∧ r = try_except (to_zarr L c) (write_error path)).
Proof.
  intros Hrun. split.
  - intros c Hcalls.
    destruct (write_to_zarr_call _ _ _ _ Hrun Hcalls)
      as (fs & ex & w1 & da1 & variable & ds & _ & _ & Hn & Hchunk & Hvar
          & Hds & ->).
    apply normalize_attrs_frame in Hn as [a' ->].
    unfold da_chunk in Hchunk.
    destruct (forallb _ chunk_spec) eqn:Hall; [|done]. injection Hchunk as <-.
    assert (Hdim : is_Some (assoc_get (dims (w_da w)) "variable")).
    { cbn in Hall. rewrite !andb_true_iff in Hall.
      destruct Hall as (_ & _ & _ & Hv & _).
      by apply bool_decide_eq_true_1 in Hv. }
    destruct Hdim as [n Hdim].
    unfold coords_getitem in Hvar. cbn [coords dims set_attrs w_da] in Hvar.
    rewrite Hdim in Hvar.
    assert (variable = default (default_index n)
                         (assoc_get (coords (w_da w)) "variable")) as ->.
    { destruct (assoc_get (coords (w_da w)) "variable"); by injection Hvar. }
    unfold to_dataset in Hds.
    destruct (assoc_get _ "data"); [done|]. injection Hds as <-.
    eexists n, _, _, _. split; [done|]. split; [reflexivity|].
    split; [reflexivity|].
    cbn [call_ds ds_coords data_vars coords_setitem coords].
    rewrite assoc_get_set, String.eqb_refl.
    split; [by destruct (default _ _)|]. split; [reflexivity|].
    cbn [coords coords_setitem]. rewrite assoc_get_set, String.eqb_refl.
    by destruct (default _ _).
  - intros fs ex w1 Hfs Hex Hn Hdims Hdata.
    destruct (write_to_zarr_reaches_backend w w1 fs ex Hfs Hex Hn Hdims Hdata)
      as (c & Hc & _ & _).
    rewrite Hc in Hrun. injection Hrun as <- <-. by exists c.
Qed.

End StoreWriter.

Lemma write_to_zarr_failures_witness :
  ∃ e, Writer.write_to_zarr Demo.fresh_backend Demo.no_credentials
         Demo.local_store (Writer.initial Demo.flat_da)
       = (Raise e, Writer.initial Demo.flat_da)
       ∧ exn_cls e = "OSError"
       ∧ exn_str e = "Error writing dataset to zarr store data/store.zarr: chunks keys not found in data dimensions"
       ∧ exn_cause e
         = Some (Exn "ValueError" "chunks keys not found in data dimensions" None).
Proof.
  destruct (write_to_zarr_failures Demo.fresh_backend Demo.no_credentials
              Demo.local_store (Writer.initial Demo.flat_da)
              (LocalFS true) false eq_refl eq_refl) as [_ H].
  apply (H (Writer.initial Demo.flat_da)
           (Exn "ValueError" "chunks keys not found in data dimensions" None)
           (Writer.initial Demo.flat_da)); vm_compute; reflexivity.
Defined.

(** C2, as the design document states it, fails: an error raised while
    the attributes are normalized reaches the caller as it was raised,
    not as an [OSError], without the path and without a cause.  Here a
    nested mapping holds a generator, which [yaml.dump] cannot represent
    ([TypeError: cannot pickle 'generator' object]). *)
Lemma write_to_zarr_normalization_error_unwrapped :
  let w := Writer.initial (Demo.sample_da Filename.generator_attrs) in
  resolve_fs Demo.no_credentials Demo.local_store = Ok (LocalFS true) ∧
  fs_exists Filename.pickling_backend (LocalFS true) Demo.local_store
    = Ok false ∧
  ∃ e w',
    Writer.write_to_zarr Filename.pickling_backend Demo.no_credentials
      Demo.local_store w = (Raise e, w')
    ∧ exn_cls e = "TypeError"
    ∧ exn_cause e = None
    ∧ Writer.w_calls w' = []
    ∧ ∀ cause, e ≠ Writer.write_error Demo.local_store cause.
Proof.
  intros w. split; [reflexivity|]. split; [reflexivity|].
  eexists _, _. split; [vm_compute; reflexivity|].
  split; [reflexivity|]. split; [reflexivity|]. split; [reflexivity|].
  intros cause. discriminate.
Qed.

(** C5: the nested mapping of [Demo.deep_attrs] comes out of the widening
    loop as it went in, still holding a [float32], and that is what the
    encoder is given; an encoder that complains about such a value makes
    the normalizer raise. *)
Theorem widen_loop_misses_nested_float :
  let inner := [("altitude", PyNpFloating float32 Demo.one_half)] in
  let d := [("nominal", PyDict inner)] in
  Demo.deep_attrs = [("orbital_parameters", PyDict d)] ∧
  Writer.widen_loop (keys d) d = Ok d ∧
  has_reduced_float (PyDict d) = true ∧
  Writer.normalize_attrs Demo.fresh_backend
    (Writer.initial (Demo.sample_da Demo.deep_attrs))
  = (Raise (Exn "RepresenterError" "cannot represent an object" None),
     Writer.initial (Demo.sample_da Demo.deep_attrs)).
Proof. repeat split. Qed.


Lemma sample_dims :
  Forall (λ dim, is_Some (assoc_get (dims (Demo.sample_da Demo.sample_attrs)) dim))
    ["time"; "x_geostationary"; "y_geostationary"; "variable"].
Proof.
  repeat (apply List.Forall_cons; [by eexists|]). apply List.Forall_nil.
Qed.

Lemma write_to_zarr_mode_witness :
  (∃ c, Writer.w_calls Demo.sample_run.2 = [c]
        ∧ Demo.sample_run.1 = Ok tt
        ∧ dict_get (call_kwargs c) "mode" = Some (PyStr "w")
        ∧ dict_get (call_kwargs c) "append_dim" = None)
  ∧ (∃ c, Writer.w_calls Filename.append_run.2 = [c]
          ∧ Filename.append_run.1 = Ok tt
          ∧ dict_get (call_kwargs c) "mode" = Some (PyStr "a")
          ∧ dict_get (call_kwargs c) "append_dim" = Some (PyStr "time")
          ∧ dict_get (call_kwargs c) "encoding" = None).
Proof.
  split.
  - destruct (write_to_zarr_mode Demo.fresh_backend Demo.no_credentials
                Demo.local_store Demo.sample_world Demo.sample_run.2
                Demo.sample_run.1 eq_refl) as [_ H].
    destruct (H (LocalFS true) false
                (Writer.normalize_attrs Demo.fresh_backend Demo.sample_world).2
                eq_refl eq_refl)
      as (c & Hc & Hr & Hmode & Happend & _).
    + vm_compute. reflexivity.
    + exact sample_dims.
    + reflexivity.
    + exists c. split; [exact Hc|]. split; [exact Hr|].
      split; [exact Hmode|exact Happend].
  - destruct (write_to_zarr_mode Demo.existing_backend Demo.no_credentials
                Demo.local_store Demo.sample_world Filename.append_run.2
                Filename.append_run.1 eq_refl) as [_ H].
    destruct (H (LocalFS true) true
                (Writer.normalize_attrs Demo.existing_backend
                   Demo.sample_world).2
                eq_refl eq_refl)
      as (c & Hc & Hr & Hmode & Happend & Henc).
    + vm_compute. reflexivity.
    + exact sample_dims.
    + reflexivity.
    + exists c. split; [exact Hc|]. split; [exact Hr|].
      split; [exact Hmode|]. split; [exact Happend|exact Henc].
Defined.


Lemma write_to_zarr_variable_str_witness :
  ∃ c, Writer.w_calls Filename.bare_run.2 = [c]
       ∧ Filename.bare_run.1 = Ok tt
       ∧ assoc_get (ds_coords (call_ds c)) "variable"
         = Some (StrCoord ["0"; "1"]).
Proof.
  destruct (write_to_zarr_variable_str Demo.fresh_backend Demo.no_credentials
              Demo.local_store (Writer.initial Filename.bare_da)
              Filename.bare_run.2 Filename.bare_run.1 eq_refl)
    as [Hany Hmade].
  destruct (Hmade (LocalFS true) false (Writer.initial Filename.bare_da)
              eq_refl eq_refl eq_refl)
    as (c & Hc & Hr).
  - repeat (apply List.Forall_cons; [by eexists|]). apply List.Forall_nil.
  - reflexivity.
  - exists c. split; [exact Hc|]. split; [exact Hr|].
    destruct (Hany c Hc)
      as (n & before & values & da & Hn & -> & -> & Hcoord & _).
    injection Hn as <-. exact Hcoord.
Defined.

(** ** The snapshot packager *)

Section SnapshotPackager.

Import Packager Spec.

Variable P : Packager.Libs.

Lemma take_nil_inv {A} (n : nat) (l : list A) : 0 < n → take n l = [] → l = [].
Proof. destruct n, l; simpl; intros; (done || lia). Qed.

(** The copy loop with enough fuel: what was written is a prefix of the
    source, all of it exactly when the loop returns; a failure is that of
    some [fdst.write] and leaves a proper prefix. *)
Lemma copy_loop_run (len : nat) (dst : string) :
  0 < len →
  ∀ (fuel : nat) (src : bytes) (i : nat) (acc : bytes)
    (files : gmap string bytes),
    length src < fuel →
    files !! dst = Some acc →
    ∃ written r,
      copy_loop fuel P len src i dst files
        = (r, <[dst := acc ++ written]> files)
      ∧ written `prefix_of` src
      ∧ match r with
        | Ok _ => written = src
        | Raise e => length written < length src
                     ∧ ∃ j, write_fault P j = Some e
        end
      ∧ ((∀ j, write_fault P j = None) → r = Ok tt).
Proof.
  intros Hlen. induction fuel as [|fuel IH]; intros src i acc files Hfuel Hacc.
  { lia. }
  cbn [copy_loop].
  destruct (take len src) as [|b buf] eqn:Htake.
  - apply take_nil_inv in Htake as ->; [|done].
    exists [], (Ok tt). rewrite app_nil_r, insert_id by done.
    by repeat split.
  - assert (Hsrc : src = (b :: buf) ++ drop len src).
    { by rewrite <- Htake, take_drop. }
    unfold bindS, fdst_write.
    destruct (write_fault P i) as [e|] eqn:Hfault.
    + exists [], (Raise e). unfold raise.
      rewrite app_nil_r, insert_id by done.
      split; [done|]. split; [apply prefix_nil|]. split.
      * split; [|by exists i]. rewrite Hsrc. simpl. lia.
      * intros Hnone. by rewrite Hnone in Hfault.
    + unfold modify. rewrite Hacc. cbn [default from_option id].
      destruct (IH (drop len src) (S i) (acc ++ b :: buf)
                  (<[dst := acc ++ b :: buf]> files))
        as (written & r & Hrun & Hpre & Hr & Htot).
      { rewrite length_drop.
        assert (length src ≠ 0); [|lia].
        rewrite Hsrc. simpl. lia. }
      { apply lookup_insert_eq. }
      exists ((b :: buf) ++ written), r.
      rewrite Hrun, insert_insert_eq, <- app_assoc.
      split; [done|]. split; [|split; [|done]].
      * rewrite Hsrc at 1. by apply prefix_app.
      * destruct r as [[]|e].
        -- by rewrite Hr, <- Hsrc.
        -- destruct Hr as [Hlt Hj]. split; [|done].
           rewrite Hsrc at 1. rewrite !length_app. lia.
Qed.

Lemma copyfileobj_run (src : bytes) (dst : string) (len : nat)
    (acc : bytes) (files : gmap string bytes) :
  files !! dst = Some acc →
  ∃ written r,
    copyfileobj P src dst len files = (r, <[dst := acc ++ written]> files)
    ∧ written `prefix_of` src
    ∧ match r with
      | Ok _ => written = src
      | Raise e => length written < length src ∧ ∃ j, write_fault P j = Some e
      end
    ∧ ((∀ j, write_fault P j = None) → r = Ok tt).
Proof.
  intros Hacc. unfold copyfileobj.
  apply copy_loop_run; [|lia|done].
  destruct (Nat.eqb_spec len 0); [|lia].
  unfold COPY_BUFSIZE. lia.
Qed.

(** The whole of [create_latest_zip] once the store is open and staged
    and [fs.open] has given a handle. *)
Lemma create_latest_zip_run (environ : gmap string string)
    (zarr_path : string) (files files' : gmap string bytes)
    (fs : FileSystem) (ds : Dataset) (staged : bytes) (r : result string) :
  resolve_fs environ zarr_path = Ok fs →
  open_zarr P {| store_fs := fs; store_path := zarr_path |} = Ok ds →
  zip_store P ds = Ok staged →
  open_fault P (zippath_of zarr_path) = None →
  create_latest_zip P environ zarr_path files = (r, files') →
  ∃ written closing,
    close_handle P (zippath_of zarr_path) written files = (closing, files')
    ∧ written `prefix_of` staged
    ∧ match closing with
      | Some e => r = Raise e
      | None =>
          match r with
          | Ok p => p = zippath_of zarr_path ∧ written = staged
          | Raise e =>
              length written < length staged
              ∧ ∃ cause j, write_fault P j = Some cause
                           ∧ e = zip_error (zippath_of zarr_path) cause
          end
      end
    ∧ ((∀ j, write_fault P j = None) →
       written = staged ∧ (closing = None → r = Ok (zippath_of zarr_path))).
Proof.
  intros Hfs Hopen Hzip Hfault.
  unfold create_latest_zip, bindS, lift, with_fdst, open_wb, try_exceptS, ret.
  rewrite Hfs, Hopen, Hfault, Hzip.
  destruct (copyfileobj_run staged (zippath_of zarr_path) (16 * 1024) []
              ({[zippath_of zarr_path := []]} : gmap string bytes))
    as (written & r0 & Hrun & Hpre & Hr & Htot).
  { apply lookup_singleton_eq. }
  rewrite Hrun. cbn [app].
  assert (Hheld : default [] ((<[zippath_of zarr_path := written]>
                    ({[zippath_of zarr_path := []]} : gmap string bytes))
                    !! zippath_of zarr_path) = written).
  { by rewrite lookup_insert_eq. }
  destruct r0 as [[]|cause]; rewrite Hheld;
    destruct (close_handle P (zippath_of zarr_path) written files)
      as [[e|] files1] eqn:Hclose; intros [= <- <-];
    exists written; eexists; (split; [exact Hclose|]); (split; [done|]).
  - split; [done|]. intros _. by split.
  - split; [done|]. intros _. by split.
  - split; [done|]. intros Hnone. by specialize (Htot Hnone).
  - destruct Hr as [Hlt [j Hj]]. split.
    + split; [done|]. by exists cause, j.
    + intros Hnone. by specialize (Htot Hnone).
Qed.

(** C1 (as the code has it).  Once the store is open and staged into the
    temporary archive and [fs.open] has given a handle, the handle
    receives a prefix of the staged archive, and the files afterwards are
    those the backend has once that handle is closed.  Unless closing
    raises, [create_latest_zip] returns the destination path exactly when
    the handle received the whole archive, and after a failed write it
    raises an [OSError] built from the destination path and that failure,
    the handle having received a proper prefix.  On a backend whose
    handles write through, the destination then holds exactly what the
    handle received - the complete new archive on return, a proper prefix
    of it after a failed write, what it held before being gone - and no
    other file changes; on a backend whose handles do not reach the
    file, no file changes in either case.  When no write fails, the
    handle receives the whole archive. *)
Theorem create_latest_zip_outcome (environ : gmap string string)
    (zarr_path : string) (files files' : gmap string bytes)
    (fs : FileSystem) (ds : Dataset) (staged : bytes) (r : result string) :
  resolve_fs environ zarr_path = Ok fs →
  open_zarr P {| store_fs := fs; store_path := zarr_path |} = Ok ds →
  zip_store P ds = Ok staged →
  open_fault P (zippath_of zarr_path) = None →
  create_latest_zip P environ zarr_path files = (r, files') →
  ∃ written,
    written `prefix_of` staged
    ∧ files' = (close_handle P (zippath_of zarr_path) written files).2
    ∧ ((close_handle P (zippath_of zarr_path) written files).1 = None →
       match r with
       | Ok p => p = zippath_of zarr_path ∧ written = staged
       | Raise e =>
           length written < length staged
           ∧ ∃ cause j, write_fault P j = Some cause
                        ∧ e = zip_error (zippath_of zarr_path) cause
       end)
    ∧ (writes_through P →
       files' = <[zippath_of zarr_path := written]> files
       ∧ (r = Ok (zippath_of zarr_path) ↔ written = staged))
    ∧ (detached P → files' = files)
    ∧ ((∀ j, write_fault P j = None) → written = staged).
Proof.
  intros Hfs Hopen Hzip Hfault Hrun.
  destruct (create_latest_zip_run _ _ _ _ _ _ _ _ Hfs Hopen Hzip Hfault Hrun)
    as (written & closing & Hclose & Hpre & Hr & Htot).
  exists written. rewrite Hclose. cbn [fst snd].
  split; [done|]. split; [done|]. split; [by intros ->|]. split; [|split].
  - intros Hwt. rewrite (Hwt _ _ _) in Hclose. injection Hclose as <- <-.
    split; [done|]. destruct r as [p|e].
    + destruct Hr as [-> ->]. done.
    + destruct Hr as [Hlt _]. split; [done|]. intros ->. lia.
  - intros Hd. rewrite (Hd _ _ _) in Hclose. by injection Hclose as _ <-.
  - intros Hnone. by destruct (Htot Hnone).
Qed.

End SnapshotPackager.

Lemma healthy_packager_writes_through :
  Packager.writes_through Demo.healthy_packager.
Proof. intros path written files. reflexivity. Qed.

Lemma create_latest_zip_outcome_witness :
  let run := Packager.create_latest_zip Demo.healthy_packager
               Demo.no_credentials Demo.local_store Demo.published in
  let run' := Packager.create_latest_zip Filename.healthy_detached
                Demo.no_credentials Demo.local_store Demo.published in
  (run.1 = Ok "data/latest.zarr.zip"
   ∧ run.2 !! "data/latest.zarr.zip" = Some Demo.new_archive)
  ∧ run'.2 = Demo.published.
Proof.
  intros run run'. split.
  - destruct (create_latest_zip_outcome Demo.healthy_packager
                Demo.no_credentials Demo.local_store Demo.published run.2
                (LocalFS true) Demo.opened_store Demo.new_archive run.1
                eq_refl eq_refl eq_refl eq_refl eq_refl)
      as (written & _ & _ & _ & Hwt & _ & Htot).
    destruct (Hwt healthy_packager_writes_through) as [Hfiles Hiff].
    rewrite (Htot (λ _, eq_refl)) in *.
    split; [exact (proj2 Hiff eq_refl)|].
    rewrite Hfiles. apply lookup_insert_eq.
  - destruct (create_latest_zip_outcome Filename.healthy_detached
                Demo.no_credentials Demo.local_store Demo.published run'.2
                (LocalFS true) Demo.opened_store Demo.new_archive run'.1
                eq_refl eq_refl eq_refl eq_refl eq_refl)
      as (written & _ & _ & _ & _ & Hd & _).
    apply Hd. intros path w files. reflexivity.
Defined.

(** C1, as the design document states it, fails on a backend whose
    handles write through: with a snapshot already published and the new
    archive fully staged, a copy that is interrupted at its first write
    leaves an empty destination, which is neither the prior snapshot nor
    the new one. *)
Lemma create_latest_zip_interrupted_copy :
  let run := Packager.create_latest_zip Demo.interrupted_packager
               Demo.no_credentials Demo.local_store Demo.published in
  Packager.writes_through Demo.interrupted_packager
  ∧ Demo.published !! "data/latest.zarr.zip" = Some Demo.prior_archive
  ∧ Packager.zip_store Demo.interrupted_packager Demo.opened_store
    = Ok Demo.new_archive
  ∧ run.1 = Raise (Packager.zip_error "data/latest.zarr.zip"
                     (Exn "ConnectionError" "connection reset by peer" None))
  ∧ run.2 !! "data/latest.zarr.zip" = Some []
  ∧ run.2 !! "data/latest.zarr.zip" ≠ Some Demo.prior_archive
  ∧ run.2 !! "data/latest.zarr.zip" ≠ Some Demo.new_archive.
Proof.
  intros run.
  assert (Hdst : run.2 !! "data/latest.zarr.zip" = Some [])
    by (vm_compute; reflexivity).
  split; [by intros ? ? ?|].
  split; [vm_compute; reflexivity|]. split; [reflexivity|].
  split; [vm_compute; reflexivity|]. split; [exact Hdst|].
  rewrite Hdst. split; discriminate.
Qed.

(** C9: for a store named without a directory, line 88 gives a
    destination inside the store, not next to it.  [rsplit("/", 1)]
    returns the whole of ["store.zarr"], so the archive of the store goes
    to ["store.zarr/latest.zarr.zip"], where the directory that holds the
    store is the current one. *)
Theorem create_latest_zip_bare_store_name :
  Packager.rsplit1 "store.zarr" = ["store.zarr"]
  ∧ Spec.store_parent "store.zarr" = "."
  ∧ Packager.zippath_of "store.zarr" = "store.zarr/latest.zarr.zip"
  ∧ Packager.zippath_of "store.zarr"
    ≠ Spec.store_parent "store.zarr" +:+ "/latest.zarr.zip"
  ∧ (Packager.create_latest_zip Demo.healthy_packager Demo.no_credentials
       "store.zarr" Demo.published).1 = Ok "store.zarr/latest.zarr.zip".
Proof.
  split; [reflexivity|].
  split; [reflexivity|]. split; [reflexivity|]. split; [discriminate|].
  vm_compute. reflexivity.
Qed.

(** * Further properties of the code *)

(** ** The S3 resolver, completely *)

(** X1.  [get_s3_fs] returns a handle exactly when both credentials are
    set; the handle is then an S3 handle, never anonymous, asynchronous,
    carrying the two credentials as they stand in the environment and, as
    region, the value of [AWS_REGION] when that is set (even to the empty
    string) and [eu-west-1] otherwise. *)
Theorem get_s3_fs_handle (environ : gmap string string) :
  ((∃ fs, get_s3_fs environ = Ok fs)
   ↔ is_Some (environ !! AWS_ACCESS_KEY_ID)
     ∧ is_Some (environ !! AWS_SECRET_ACCESS_KEY))
  ∧ ∀ fs, get_s3_fs environ = Ok fs →
      ∃ h, fs = S3FS h
           ∧ anon h = false
           ∧ asynchronous h = true
           ∧ environ !! AWS_ACCESS_KEY_ID = Some (key h)
           ∧ environ !! AWS_SECRET_ACCESS_KEY = Some (secret h)
           ∧ match environ !! AWS_REGION with
             | Some region => region_name h = region
             | None => region_name h = "eu-west-1"
             end.
Proof.
  unfold get_s3_fs, environ_getitem, getenv.
  cbn [required_vars check_required].
  destruct (environ !! AWS_ACCESS_KEY_ID) as [k|] eqn:Hk; cbn.
  2:{ split; [|done]. split; [by intros [? ?]|]. by intros [[? ?] _]. }
  destruct (environ !! AWS_SECRET_ACCESS_KEY) as [s|] eqn:Hs; cbn.
  2:{ split; [|done]. split; [by intros [? ?]|]. by intros [_ [? ?]]. }
  split.
  - split; [by intros _; split; eexists|]. intros _. by eexists.
  - intros fs [= <-]. eexists. split; [reflexivity|]. cbn.
    repeat (split; [done|]). by destruct (environ !! AWS_REGION).
Qed.

Lemma get_s3_fs_handle_witness :
  ∃ h, get_s3_fs (<[AWS_REGION := ""]> Demo.both_credentials) = Ok (S3FS h)
       ∧ region_name h = "" ∧ anon h = false.
Proof.
  destruct (get_s3_fs_handle (<[AWS_REGION := ""]> Demo.both_credentials))
    as [_ H].
  destruct (H _ eq_refl) as (h & Hfs & Hanon & _ & _ & _ & Hregion).
  exists h. injection Hfs as <-. split; [reflexivity|]. split; [exact Hregion|exact Hanon].
Defined.

(** ** The store writer: what a call leaves behind *)

Section WriterEffects.

Import Writer Spec.

Variable L : Xr.Libs.
Variable environ : gmap string string.
Variable path : string.

(** X2.  A failure to resolve the backend is the first thing that can
    happen: for an S3 URL with a credential unset, [write_to_zarr] raises
    the error naming an unset credential and leaves the array and the
    backend as they were; so does a failing existence check, with its own
    error, not wrapped. *)
Theorem write_to_zarr_configuration_error (w : World) :
  (is_s3_path path = true →
   environ !! AWS_ACCESS_KEY_ID = None
   ∨ environ !! AWS_SECRET_ACCESS_KEY = None →
   ∃ var, var ∈ required_vars ∧ environ !! var = None
          ∧ write_to_zarr L environ path w
            = (Raise (missing_credential var), w))
  ∧ (∀ fs e, resolve_fs environ path = Ok fs →
             fs_exists L fs path = Raise e →
             write_to_zarr L environ path w = (Raise e, w)).
Proof.
  split.
  - intros Hs3 Hmissing.
    unfold write_to_zarr, bindS, lift, resolve_fs. rewrite Hs3.
    unfold get_s3_fs. cbn [required_vars check_required].
    destruct (environ !! AWS_ACCESS_KEY_ID) as [k|] eqn:Hk.
    + destruct Hmissing as [Hk'|Hs]; [done|].
      exists AWS_SECRET_ACCESS_KEY. rewrite Hs. cbn.
      split; [|done]. unfold required_vars. right. left.
    + exists AWS_ACCESS_KEY_ID. cbn.
      split; [|done]. unfold required_vars. left.
  - intros fs e Hfs Hex. unfold write_to_zarr, bindS, lift.
    by rewrite Hfs, Hex.
Qed.

(** X3.  A call reaches the backend at most once.  When [write_to_zarr]
    returns, the backend has received exactly one [to_zarr] call, on the
    store at [path] with [compute=True] and [consolidated=True], and
    accepted it; when the backend refuses the call, the outcome is its
    error wrapped by line 72. *)
Theorem write_to_zarr_calls_backend_once (w w' : World) (r : result unit) :
  write_to_zarr L environ path w = (r, w') →
  (w_calls w' = w_calls w ∧ ∃ e, r = Raise e)
  ∨ (∃ c, w_calls w' = w_calls w ++ [c]
          ∧ store_path (call_store c) = path
          ∧ dict_get (call_kwargs c) "compute" = Some (PyBool true)
          ∧ dict_get (call_kwargs c) "consolidated" = Some (PyBool true)
          ∧ r = try_except (to_zarr L c) (write_error path)).
Proof.
  intros Hrun.
  apply write_to_zarr_run in Hrun
    as [[-> [e [_ ->]]]|(fs & Hfs & [[-> [e [_ ->]]]|(ex & Hex &
         [(e & Hn & ->)|(w1 & r1 & Hn & Hc & ->)])])].
  - left. split; [done|]. by exists e.
  - left. split; [done|]. by exists e.
  - left. apply normalize_attrs_frame in Hn as [a' ->]. split; [done|].
    by exists e.
  - apply normalize_attrs_frame in Hn as [a' ->].
    apply commit_run in Hc
      as [[-> (cause & -> & _)]
         |(da1 & variable & ds & _ & _ & _ & -> & ->)].
    + left. split; [done|]. by eexists.
    + right. eexists. split; [reflexivity|]. by destruct ex.
Qed.

(** X4.  Whatever the outcome, the dimensions, the chunking and the
    coordinates of the array the caller passed are as before: chunking and
    the cast of [variable] act on a new array; only the attribute mapping
    of the caller's array can differ. *)
Theorem write_to_zarr_keeps_array (w w' : World) (r : result unit) :
  write_to_zarr L environ path w = (r, w') →
  dims (w_da w') = dims (w_da w)
  ∧ chunks (w_da w') = chunks (w_da w)
  ∧ coords (w_da w') = coords (w_da w).
Proof.
  intros Hrun.
  apply write_to_zarr_run in Hrun
    as [[-> _]|(fs & Hfs & [[-> _]|(ex & Hex &
         [(e & Hn & _)|(w1 & r1 & Hn & Hc & _)])])]; try done.
  - by apply normalize_attrs_frame in Hn as [a' ->].
  - apply normalize_attrs_frame in Hn as [a' ->].
    by apply commit_run in Hc
      as [[-> _]|(da1 & variable & ds & _ & _ & _ & _ & ->)].
Qed.

(** X5.  The rewriting of the attributes is not undone: once the backend
    is resolved and the existence check has answered, the caller's array
    is left exactly as attribute normalization left it, whether the block
    under [try] then succeeds or fails. *)
Theorem write_to_zarr_keeps_normalized_attrs (w w1 : World)
    (fs : FileSystem) (ex : bool) (rn : result unit) :
  resolve_fs environ path = Ok fs →
  fs_exists L fs path = Ok ex →
  normalize_attrs L w = (rn, w1) →
  w_da (write_to_zarr L environ path w).2 = w_da w1.
Proof.
  intros Hfs Hex Hn.
  destruct (write_to_zarr L environ path w) as [r w'] eqn:Hrun.
  apply write_to_zarr_run in Hrun
    as [[_ [e [He _]]]|(fs' & Hfs' & [[_ [e [He _]]]|(ex' & Hex' &
         [(e & Hn' & _)|(w1' & r1 & Hn' & Hc & _)])])]; cbn [snd].
  - congruence.
  - congruence.
  - congruence.
  - assert (w1' = w1) as -> by congruence.
    by apply commit_run in Hc
      as [[-> _]|(da1 & variable & ds & _ & _ & _ & _ & ->)].
Qed.

End WriterEffects.

Lemma write_to_zarr_configuration_error_witness :
  ∃ var, Demo.only_secret !! var = None
         ∧ Writer.write_to_zarr Demo.fresh_backend Demo.only_secret
             "s3://bucket/store.zarr" Demo.sample_world
           = (Raise (missing_credential var), Demo.sample_world).
Proof.
  destruct (write_to_zarr_configuration_error Demo.fresh_backend
              Demo.only_secret "s3://bucket/store.zarr" Demo.sample_world)
    as [H _].
  destruct H as (var & _ & Hvar & Hrun); [reflexivity|by left|].
  by exists var.
Defined.

Lemma write_to_zarr_calls_backend_once_witness :
  ∃ c, Writer.w_calls Demo.sample_run.2 = [c]
       ∧ dict_get (call_kwargs c) "consolidated" = Some (PyBool true)
       ∧ to_zarr Demo.fresh_backend c = Ok tt.
Proof.
  destruct (write_to_zarr_calls_backend_once Demo.fresh_backend
              Demo.no_credentials Demo.local_store Demo.sample_world
              Demo.sample_run.2 Demo.sample_run.1 eq_refl)
    as [[_ [e He]]|(c & Hc & _ & _ & Hcons & _)].
  - exfalso. revert He. vm_compute. discriminate.
  - exists c. split; [exact Hc|]. split; [exact Hcons|reflexivity].
Defined.

Lemma write_to_zarr_keeps_array_witness :
  coords (Writer.w_da Demo.sample_run.2) = coords (Demo.sample_da [])
  ∧ chunks (Writer.w_da Demo.sample_run.2) = [].
Proof.
  destruct (write_to_zarr_keeps_array Demo.fresh_backend Demo.no_credentials
              Demo.local_store Demo.sample_world Demo.sample_run.2
              Demo.sample_run.1 eq_refl) as (_ & Hchunks & Hcoords).
  split; [exact Hcoords|exact Hchunks].
Defined.

Lemma write_to_zarr_keeps_normalized_attrs_witness :
  dict_get
    (attrs (Writer.w_da
              (Writer.write_to_zarr Demo.refusing_backend Demo.no_credentials
                 Demo.local_store Demo.sample_world).2))
    "calibrated" = Some (PyStr "True").
Proof.
  rewrite (write_to_zarr_keeps_normalized_attrs Demo.refusing_backend
             Demo.no_credentials Demo.local_store Demo.sample_world
             (Writer.normalize_attrs Demo.refusing_backend Demo.sample_world).2
             (LocalFS true) false
             (Writer.normalize_attrs Demo.refusing_backend Demo.sample_world).1
             eq_refl eq_refl).
  - reflexivity.
  - by destruct (Writer.normalize_attrs Demo.refusing_backend Demo.sample_world).
Defined.

(** ** The attribute normalizer: order, partial runs, the inner loop *)

Section NormalizerEffects.

Import Writer Spec.

Variable L : Xr.Libs.

Lemma keys_app (a b : dict) : keys (a ++ b) = keys a ++ keys b.
Proof. unfold keys. apply fmap_app. Qed.

Lemma normalized_items_keys (items items' : dict) :
  normalized_items L items = Ok items' → keys items' = keys items.
Proof. intros H. by destruct (normalized_items_lookup L _ _ H). Qed.

(** The loop over a stretch of the mapping, with items before and after
    it. *)
Lemma normalize_loop_segment (items : dict) :
  ∀ (seen post items' : dict) (w : World),
    attrs (w_da w) = seen ++ items ++ post →
    NoDup (keys (seen ++ items ++ post)) →
    normalized_items L items = Ok items' →
    normalize_loop L items w = (Ok tt, set_attrs w (seen ++ items' ++ post)).
Proof.
  induction items as [|[key value] rest IH]; intros seen post items' w Ha Hnd.
  - intros [= <-]. rewrite <- Ha, set_attrs_id. reflexivity.
  - cbn [normalized_items].
    destruct (normalized_value L value) as [v'|] eqn:Hv; [|done].
    cbn [Py.bind].
    destruct (normalized_items L rest) as [rest'|] eqn:Hrest; [|done].
    cbn [Py.bind]. intros [= <-].
    assert (Hkey : key ∉ keys seen).
    { rewrite keys_app in Hnd. apply NoDup_app in Hnd as (_ & Hdis & _).
      intros Hin. apply (Hdis _ Hin). cbn. left. }
    pose proof (normalize_item_spec L key value seen (rest ++ post) w Ha Hkey)
      as Hitem.
    rewrite Hv in Hitem.
    rewrite (normalize_loop_step _ _ _ _ _ _ Hitem).
    rewrite (IH (seen ++ [(key, v')]) post rest').
    + rewrite set_attrs_twice. by rewrite <- app_assoc.
    + by rewrite <- app_assoc.
    + rewrite <- app_assoc. cbn [app].
      rewrite keys_app in *. exact Hnd.
    + done.
Qed.

Lemma normalize_loop_app (pre rest : dict) :
  ∀ w w1 : World,
    normalize_loop L pre w = (Ok tt, w1) →
    normalize_loop L (pre ++ rest) w = normalize_loop L rest w1.
Proof.
  induction pre as [|[key value] pre IH]; intros w w1.
  - cbn. by intros [= <-].
  - cbn [app normalize_loop]. unfold bindS.
    destruct (normalize_item L key value w) as [[[]|e] w0]; [|done].
    apply IH.
Qed.

(** X6.  Normalization is not all-or-nothing.  When the encoder fails on
    the value under [key], the attributes before it are already rewritten
    by kind and stay so, the attributes after it are untouched, and a
    nested mapping under [key] is left with its direct values widened in
    place; the error is that of the encoder. *)
Theorem normalize_attrs_stops_at_failure (w : World) (pre post pre' : dict)
    (key : string) (value : pyval) (e : exn) :
  attrs (w_da w) = pre ++ (key, value) :: post →
  NoDup (keys (attrs (w_da w))) →
  normalized_items L pre = Ok pre' →
  normalized_value L value = Raise e →
  ∃ value',
    normalize_attrs L w
      = (Raise e, set_attrs w (pre' ++ (key, value') :: post))
    ∧ match value with
      | PyDict d => ∃ d', widen_loop (keys d) d = Ok d' ∧ value' = PyDict d'
      | _ => value' = value
      end.
Proof.
  intros Ha Hnd Hpre Hv.
  rewrite normalize_attrs_unfold, Ha.
  rewrite Ha in Hnd.
  pose proof (normalize_loop_segment pre [] ((key, value) :: post) pre' w
                Ha Hnd Hpre) as Hseg. cbn [app] in Hseg.
  rewrite (normalize_loop_app _ _ _ _ Hseg).
  set (w1 := set_attrs w (pre' ++ (key, value) :: post)).
  assert (Hkey : key ∉ keys pre').
  { rewrite (normalized_items_keys _ _ Hpre).
    rewrite keys_app in Hnd. apply NoDup_app in Hnd as (_ & Hdis & _).
    intros Hin. apply (Hdis _ Hin). cbn. left. }
  destruct value; cbn in Hv; try discriminate.
  - destruct (widen_loop_total (keys items) items) as (d' & Hd' & _); [done|].
    rewrite Hd' in Hv. cbn in Hv.
    destruct (yaml_dump L d') as [text|e'] eqn:Ht; [done|].
    injection Hv as ->.
    exists (PyDict d'). split; [|by exists d'].
    apply normalize_loop_stop.
    unfold normalize_item, normalize_dict, attrs_setitem, bindS, lift, modify.
    rewrite Hd'. cbn. rewrite Ht. cbn.
    by rewrite dict_setitem_middle.
  - destruct (area_dump L a) as [text|e'] eqn:Ht; [done|].
    injection Hv as ->.
    exists (PyArea a). split; [|done].
    apply normalize_loop_stop.
    unfold normalize_item, attrs_setitem, bindS, lift, modify, ret.
    cbn. by rewrite Ht.
Qed.

(** X7.  After a run of the normalizer that completes, no attribute is a
    [dict], a [bool] or [np.bool_], an area definition or a datetime any
    more, and the keys are the same, in the same order. *)
Theorem normalize_attrs_leaves_plain_values (w w' : World) :
  NoDup (keys (attrs (w_da w))) →
  normalize_attrs L w = (Ok tt, w') →
  keys (attrs (w_da w')) = keys (attrs (w_da w))
  ∧ ∀ key v, (key, v) ∈ attrs (w_da w') →
      isinstance_dict v = false ∧ isinstance_bool v = false
      ∧ isinstance_AreaDefinition v = false ∧ isinstance_datetime v = false.
Proof.
  intros Hnd Hrun.
  pose proof (normalize_loop_spec L (attrs (w_da w)) [] w eq_refl Hnd) as Hspec.
  rewrite <- normalize_attrs_unfold in Hspec. cbn [app] in Hspec.
  destruct (normalized_items L (attrs (w_da w))) as [items'|e] eqn:Hitems.
  2:{ destruct Hspec as [a' Hspec]. congruence. }
  assert (w' = set_attrs w items') as -> by congruence.
  cbn [set_attrs attrs w_da]. split; [by eapply normalized_items_keys|].
  intros key v Hin.
  pose proof (normalized_items_passes L _ _ Hitems) as Hall.
  rewrite Forall_forall in Hall. specialize (Hall _ Hin). cbn in Hall.
  unfold passes_through in Hall. by destruct v.
Qed.

(** X8.  On a nested mapping (its keys are distinct), the inner loop
    never raises; it replaces every direct value that is a numpy float by
    a Python float - of the same number for a [float16], [float32] or
    [float64], of the nearest double for a [longdouble] - and keeps every
    other value, every key and the order of the items. *)
Theorem widen_loop_widens_direct_values (d : dict) :
  NoDup (keys d) →
  widen_loop (keys d) d = Ok (widened d)
  ∧ keys (widened d) = keys d
  ∧ ∀ i key v, d !! i = Some (key, v) →
      widened d !! i
      = Some (key, match v with
                   | PyNpFloating longdouble x => PyFloat (to_binary64 x)
                   | PyNpFloating _ x => PyFloat x
                   | _ => v
                   end).
Proof.
  intros Hnd. split; [exact (widen_loop_direct d [] Hnd)|]. split.
  - unfold widened, keys. rewrite <- list_fmap_compose.
    by apply list_fmap_ext.
  - intros i key v Hi. unfold widened. rewrite list_lookup_fmap, Hi.
    cbn. destruct v as [| | | |k x| | | | | | |]; try done; by destruct k.
Qed.

(** X9.  When the direct values of a nested mapping are scalars (none is
    itself a [dict] or a [list]), what the inner loop hands to
    [yaml.dump] holds no numpy float narrower than double precision. *)
Theorem widen_loop_clears_flat_mapping (d : dict) :
  NoDup (keys d) →
  Forall (λ kv, match kv.2 with PyDict _ | PyList _ => False | _ => True end)
    d →
  ∃ d', widen_loop (keys d) d = Ok d' ∧ has_reduced_float (PyDict d') = false.
Proof.
  intros Hnd Hflat. exists (widened d).
  split; [exact (widen_loop_direct d [] Hnd)|].
  clear Hnd. cbn [has_reduced_float]. unfold widened.
  induction Hflat as [|[k v] rest Hv _ IH]; [done|].
  cbn [fmap list_fmap existsb fst snd].
  rewrite IH. cbn in Hv.
  destruct v as [| | | |kind x| | | | | | |]; try done; by destruct kind.
Qed.

End NormalizerEffects.

(** ** Scan times from file names *)

Section ScantimeProps.

Import Scantime Filename.

Lemma before_first_dot_app (a b : text) :
  "."%char ∉ a → before_first_dot (a ++ b) = a ++ before_first_dot b.
Proof.
  induction a as [|c a IH]; intros Hdot; [done|]. cbn.
  apply not_elem_of_cons in Hdot as [Hc Ha].
  destruct (Ascii.eqb_spec c ".") as [->|_]; [done|]. by rewrite IH.
Qed.

Lemma before_first_dot_id (a : text) :
  "."%char ∉ a → before_first_dot a = a.
Proof.
  intros Hdot. rewrite <- (app_nil_r a) at 1.
  rewrite before_first_dot_app by done. cbn. apply app_nil_r.
Qed.

Lemma before_first_dot_tail (tail : text) :
  tail = [] ∨ (∃ rest, tail = "."%char :: rest) → before_first_dot tail = [].
Proof. by intros [->|[rest ->]]. Qed.

Lemma last_chars_app (n : nat) (a b : text) :
  length b = n → last_chars n (a ++ b) = b.
Proof.
  intros <-. unfold last_chars. rewrite length_app.
  replace (length a + length b - length b) with (length a) by lia.
  by rewrite drop_app_length.
Qed.

Lemma last_chars_length (n : nat) (s : text) : length (last_chars n s) ≤ length s.
Proof. unfold last_chars. rewrite length_drop. lia. Qed.

Lemma between_spec (lo hi c : ascii) :
  between lo hi c = true
  ↔ nat_of_ascii lo ≤ nat_of_ascii c ≤ nat_of_ascii hi.
Proof.
  unfold between. rewrite andb_true_iff, !Nat.leb_le. tauto.
Qed.

Lemma digit_char_code (k : nat) :
  k < 10 → nat_of_ascii (digit_char k) = 48 + k.
Proof.
  intros Hk. unfold digit_char. apply nat_ascii_embedding. lia.
Qed.

Lemma digit_digit_char (k : nat) : k < 10 → digit (digit_char k) = true.
Proof.
  intros Hk. apply between_spec. rewrite digit_char_code by done.
  change (nat_of_ascii "0") with 48. change (nat_of_ascii "9") with 57. lia.
Qed.

Lemma int_of_text_digits (ks : list nat) :
  Forall (λ k, k < 10) ks →
  ∀ acc, foldl (fun acc c =>
                  if digit c then 10 * acc + (nat_of_ascii c - 48) else acc)
           acc (digit_char <$> ks)
         = foldl (λ acc k, 10 * acc + k) acc ks.
Proof.
  induction 1 as [|k ks Hk _ IH]; intros acc; [done|]. cbn [fmap list_fmap foldl].
  rewrite digit_digit_char, digit_char_code by done.
  replace (48 + k - 48) with k by lia. apply IH.
Qed.

Lemma int_of_two_digits (v : nat) : v < 100 → int_of_text (two_digits v) = v.
Proof.
  intros Hv. unfold int_of_text, two_digits.
  rewrite (int_of_text_digits [v / 10 mod 10; v mod 10]).
  - cbn [foldl].
    pose proof (Nat.div_mod_eq v 10). 
    assert (v / 10 < 10) by (apply Nat.Div0.div_lt_upper_bound; lia).
    rewrite (Nat.mod_small (v / 10)) by done. lia.
  - repeat (apply List.Forall_cons; [apply Nat.mod_upper_bound; lia|]).
    apply List.Forall_nil.
Qed.

Lemma int_of_four_digits (v : nat) :
  v < 100 * 100 → int_of_text (four_digits v) = v.
Proof.
  intros Hv. unfold int_of_text, four_digits.
  rewrite (int_of_text_digits
             [v / 1000 mod 10; v / 100 mod 10; v / 10 mod 10; v mod 10]).
  - cbn [foldl].
    pose proof (Nat.div_mod_eq v 10) as H1.
    pose proof (Nat.div_mod_eq (v / 10) 10) as H2.
    rewrite Nat.Div0.div_div in H2. change (10 * 10) with 100 in H2.
    pose proof (Nat.div_mod_eq (v / 100) 10) as H3.
    rewrite Nat.Div0.div_div in H3. change (100 * 10) with 1000 in H3.
    assert (v / 1000 < 10) by (apply Nat.Div0.div_lt_upper_bound; lia).
    rewrite (Nat.mod_small (v / 1000)) by done. lia.
  - repeat (apply List.Forall_cons; [apply Nat.mod_upper_bound; lia|]).
    apply List.Forall_nil.
Qed.

(** Evaluate the character classes on the digits of a given number. *)
Ltac eval_classes :=
  cbn; unfold digit;
  repeat match goal with
         | |- context [between ?lo ?hi (digit_char ?k)] =>
             let b := eval vm_compute in (between lo hi (digit_char k)) in
             change (between lo hi (digit_char k)) with b
         end;
  cbn.

Lemma match_year (y : nat) groups (rest : text) ts e :
  match_groups groups rest = Some (ts, e) →
  match_groups (regex_Y :: groups) (four_digits y ++ rest)
  = Some (four_digits y :: ts, e).
Proof.
  intros H. unfold regex_Y, four_digits. cbn [match_groups match_alt app].
  rewrite !digit_digit_char by (apply Nat.mod_upper_bound; lia).
  by rewrite H.
Qed.

Lemma match_month (v : nat) groups (rest : text) ts e :
  1 ≤ v ≤ 12 →
  match_groups groups rest = Some (ts, e) →
  match_groups (regex_m :: groups) (two_digits v ++ rest)
  = Some (two_digits v :: ts, e).
Proof.
  intros Hv H.
  do 13 (destruct v as [|v]; [first [lia|eval_classes; rewrite H; reflexivity]|]). lia.
Qed.

Lemma match_day (v : nat) groups (rest : text) ts e :
  1 ≤ v ≤ 31 →
  match_groups groups rest = Some (ts, e) →
  match_groups (regex_d :: groups) (two_digits v ++ rest)
  = Some (two_digits v :: ts, e).
Proof.
  intros Hv H.
  do 32 (destruct v as [|v]; [first [lia|eval_classes; rewrite H; reflexivity]|]). lia.
Qed.

Lemma match_hour (v : nat) groups (rest : text) ts e :
  v ≤ 23 →
  match_groups groups rest = Some (ts, e) →
  match_groups (regex_H :: groups) (two_digits v ++ rest)
  = Some (two_digits v :: ts, e).
Proof.
  intros Hv H.
  do 24 (destruct v as [|v]; [first [lia|eval_classes; rewrite H; reflexivity]|]). lia.
Qed.

Lemma match_minute (v : nat) groups (rest : text) ts e :
  v ≤ 59 →
  match_groups groups rest = Some (ts, e) →
  match_groups (regex_M :: groups) (two_digits v ++ rest)
  = Some (two_digits v :: ts, e).
Proof.
  intros Hv H.
  do 60 (destruct v as [|v]; [first [lia|eval_classes; rewrite H; reflexivity]|]). lia.
Qed.

Lemma match_second (v : nat) groups (rest : text) ts e :
  v ≤ 59 →
  match_groups groups rest = Some (ts, e) →
  match_groups (regex_S :: groups) (two_digits v ++ rest)
  = Some (two_digits v :: ts, e).
Proof.
  intros Hv H.
  do 60 (destruct v as [|v]; [first [lia|eval_classes; rewrite H; reflexivity]|]). lia.
Qed.

Lemma days_in_month_le (y m : nat) : days_in_month y m ≤ 31.
Proof.
  unfold days_in_month.
  do 12 (destruct m as [|m]; [first [lia|destruct (is_leap y); lia]|]). lia.
Qed.

(** Parsing the stamp of a scan time that exists gives the scan time
    back, without a time zone. *)
Lemma strptime_stamp (d : datetime) :
  valid_scantime d →
  strptime_YmdHMS (stamp d)
  = Ok {| year := year d; month := month d; day := day d;
          hour := hour d; minute := minute d; second := second d;
          microsecond := 0; utcoffset_minutes := None |}.
Proof.
  intros (Hy & Hm & Hd & HH & HM & HS & _).
  pose proof (days_in_month_le (year d) (month d)) as Hdim.
  unfold strptime_YmdHMS, format_regex, stamp.
  rewrite <- (app_nil_r (two_digits (second d))).
  rewrite (match_year (year d) _ _
             [two_digits (month d); two_digits (day d); two_digits (hour d);
              two_digits (minute d); two_digits (second d)] []).
  2:{ apply match_month; [done|]. apply match_day; [lia|].
      apply match_hour; [done|]. apply match_minute; [done|].
      by apply match_second. }
  cbn [nth].
  rewrite int_of_four_digits by lia.
  rewrite !int_of_two_digits by lia.
  destruct (Nat.eqb_spec (year d) 0); [lia|].
  destruct (Nat.ltb_spec (days_in_month (year d) (month d)) (day d)); [lia|].
  destruct (Nat.ltb_spec 59 (second d)); [lia|]. reflexivity.
Qed.

(** X10.  A name of the documented form - any text without a dot, then
    the fourteen digits [YYYYMMDDHHMMSS] of a date and time that exist,
    then nothing or a dot and anything - gives that date and time, in
    UTC. *)
Theorem fname_to_scantime_documented_form (d : datetime)
    (prefix tail : text) :
  valid_scantime d →
  "."%char ∉ prefix →
  tail = [] ∨ (∃ rest, tail = "."%char :: rest) →
  _fname_to_scantime (String.string_of_list_ascii (prefix ++ stamp d ++ tail))
  = Ok (replace_tzinfo_UTC d).
Proof.
  intros Hvalid Hprefix Htail. unfold _fname_to_scantime.
  rewrite String.list_ascii_of_string_of_list_ascii.
  assert (Hstamp : "."%char ∉ stamp d).
  { unfold stamp, four_digits, two_digits. cbn [app].
    intros Hin. rewrite !elem_of_cons, elem_of_nil in Hin.
    assert (∀ k, k < 10 → "."%char ≠ digit_char k) as Hne.
    { intros k Hk Heq. apply (f_equal nat_of_ascii) in Heq.
      rewrite digit_char_code in Heq by done.
      change (nat_of_ascii ".") with 46 in Heq. lia. }
    repeat (destruct Hin as [Hin|Hin];
            [by apply Hne in Hin; [|apply Nat.mod_upper_bound]|]). done. }
  rewrite app_assoc, before_first_dot_app.
  2:{ intros Hin. apply elem_of_app in Hin as [?|?]; done. }
  rewrite before_first_dot_tail, app_nil_r by done.
  rewrite last_chars_app by reflexivity.
  rewrite strptime_stamp by done. cbn [Py.bind].
  destruct Hvalid as (_ & _ & _ & _ & _ & _ & Hmicro).
  unfold replace_tzinfo_UTC. cbn. by rewrite Hmicro.
Qed.

(** What a successful match says about the input. *)
Lemma match_alt_sound (alt : list (ascii -> bool)) :
  ∀ (s t r : text),
    match_alt alt s = Some (t, r) →
    s = t ++ r ∧ Forall2 (λ cls c, cls c = true) alt t.
Proof.
  induction alt as [|cls alt IH]; intros s t r; cbn.
  - intros [= <- <-]. split; [done|constructor].
  - destruct s as [|c s]; [done|].
    destruct (cls c) eqn:Hc; [|done].
    destruct (match_alt alt s) as [[t0 r0]|] eqn:Halt; [|done].
    intros [= <- <-]. destruct (IH _ _ _ Halt) as [-> Hall].
    split; [done|]. by constructor.
Qed.

Lemma match_groups_sound (groups : list (list (list (ascii -> bool)))) :
  ∀ (s : text) (ts : list text) (r : text),
    match_groups groups s = Some (ts, r) →
    s = concat ts ++ r
    ∧ Forall2 (λ alts t, ∃ alt, alt ∈ alts
                                ∧ Forall2 (λ cls c, cls c = true) alt t)
        groups ts.
Proof.
  induction groups as [|alts groups IH]; intros s ts r.
  - cbn. intros [= <- <-]. split; [done|constructor].
  - induction alts as [|alt alts IHalts]; [done|].
    cbn [match_groups].
    destruct (match_alt alt s) as [[t0 r0]|] eqn:Halt.
    + destruct (match_groups groups r0) as [[ts0 e0]|] eqn:Hrest.
      * intros [= <- <-].
        destruct (match_alt_sound _ _ _ _ Halt) as [-> Hm].
        destruct (IH _ _ _ Hrest) as [-> Hall].
        split; [cbn; by rewrite app_assoc|].
        constructor; [|done]. exists alt. split; [left|done].
      * intros H. destruct (IHalts H) as [Hs Hall]. split; [done|].
        inversion Hall as [|? ? ? ? (a & Ha & Hm) Htl]; subst.
        constructor; [|done]. exists a. split; [by right|done].
    + intros H. destruct (IHalts H) as [Hs Hall]. split; [done|].
      inversion Hall as [|? ? ? ? (a & Ha & Hm) Htl]; subst.
      constructor; [|done]. exists a. split; [by right|done].
Qed.

Ltac eval_codes :=
  repeat match goal with
         | H : context [nat_of_ascii (Ascii ?a ?b ?c ?d ?e ?f ?g ?h)] |- _ =>
             let v := eval vm_compute in (nat_of_ascii (Ascii a b c d e f g h)) in
             change (nat_of_ascii (Ascii a b c d e f g h)) with v in H
         | |- context [nat_of_ascii (Ascii ?a ?b ?c ?d ?e ?f ?g ?h)] =>
             let v := eval vm_compute in (nat_of_ascii (Ascii a b c d e f g h)) in
             change (nat_of_ascii (Ascii a b c d e f g h)) with v
         end.

(** From "some alternative of the group matches [t]" to the length and
    the number of [t], one alternative at a time. *)
Ltac by_alternative H :=
  let alt := fresh "alt" in
  let Hin := fresh "Hin" in
  let Hm := fresh "Hm" in
  destruct H as (alt & Hin & Hm);
  repeat (apply elem_of_cons in Hin as [->|Hin]);
  [..|by apply elem_of_nil in Hin];
  repeat match goal with
         | H : Forall2 _ (_ :: _) _ |- _ =>
             let c := fresh "c" in
             let Hc := fresh "Hc" in
             apply Forall2_cons_inv_l in H as (c & ? & Hc & H & ->);
             apply between_spec in Hc
         | H : Forall2 _ [] _ |- _ => apply Forall2_nil_inv_l in H as ->
         end;
  unfold int_of_text, digit, between; cbn [foldl length];
  eval_codes;
  repeat match goal with
         | |- context [?x <=? ?y] => destruct (Nat.leb_spec x y)
         end;
  cbn [andb]; lia.

Lemma group_Y (t : text) :
  matched_by regex_Y t → length t = 4 ∧ int_of_text t < 100 * 100.
Proof. intros H. unfold regex_Y in H. by_alternative H. Qed.

Lemma group_m (t : text) :
  matched_by regex_m t → 1 ≤ length t ∧ 1 ≤ int_of_text t ≤ 12.
Proof. intros H. unfold regex_m in H. by_alternative H. Qed.

Lemma group_d (t : text) :
  matched_by regex_d t → 1 ≤ length t ∧ 1 ≤ int_of_text t ≤ 31.
Proof. intros H. unfold regex_d in H. by_alternative H. Qed.

Lemma group_H (t : text) :
  matched_by regex_H t → 1 ≤ length t ∧ int_of_text t ≤ 23.
Proof. intros H. unfold regex_H in H. by_alternative H. Qed.

Lemma group_M (t : text) :
  matched_by regex_M t → 1 ≤ length t ∧ int_of_text t ≤ 59.
Proof. intros H. unfold regex_M in H. by_alternative H. Qed.

Lemma group_S (t : text) :
  matched_by regex_S t → 1 ≤ length t ∧ int_of_text t ≤ 61.
Proof. intros H. unfold regex_S in H. by_alternative H. Qed.

(** What [strptime] returns is a date and time that exist, read from a
    text of at least nine characters. *)
Lemma strptime_sound (s : text) (d : datetime) :
  strptime_YmdHMS s = Ok d →
  valid_scantime d ∧ utcoffset_minutes d = None ∧ 9 ≤ length s.
Proof.
  unfold strptime_YmdHMS.
  destruct (match_groups format_regex s) as [[found rest]|] eqn:Hmatch; [|done].
  destruct rest as [|c rest]; [|done].
  apply match_groups_sound in Hmatch as [-> Hall].
  unfold format_regex in Hall.
  repeat match goal with
         | H : Forall2 _ (_ :: _) _ |- _ =>
             let t := fresh "t" in
             let Ht := fresh "Ht" in
             apply Forall2_cons_inv_l in H as (t & ? & Ht & H & ->)
         | H : Forall2 _ [] _ |- _ => apply Forall2_nil_inv_l in H as ->
         end.
  cbn [nth].
  apply group_Y in Ht as [? ?]. apply group_m in Ht0 as [? ?].
  apply group_d in Ht1 as [? ?]. apply group_H in Ht2 as [? ?].
  apply group_M in Ht3 as [? ?]. apply group_S in Ht4 as [? ?].
  destruct (Nat.eqb_spec (int_of_text t) 0); [done|].
  destruct (Nat.ltb_spec (days_in_month (int_of_text t) (int_of_text t0))
              (int_of_text t1)); [done|].
  destruct (Nat.ltb_spec 59 (int_of_text t4)); [done|].
  intros [= <-]. unfold valid_scantime. cbn.
  rewrite !length_app. cbn [length]. repeat split; lia.
Qed.

(** X11.  Whatever [_fname_to_scantime] returns is a date and time that
    exist - year 1 to 9999, a day of that month in that year, a time of
    day on the second - and is in UTC. *)
Theorem fname_to_scantime_sound (fname : string) (d : datetime) :
  _fname_to_scantime fname = Ok d →
  valid_scantime d ∧ utcoffset_minutes d = Some 0%Z.
Proof.
  unfold _fname_to_scantime.
  destruct (strptime_YmdHMS _) as [d0|] eqn:Hparse; [|done].
  cbn [Py.bind]. intros [= <-].
  by apply strptime_sound in Hparse as [Hvalid _].
Qed.

(** X12.  [_fname_to_scantime] fails with a [ValueError] and nothing
    else, and it does fail when fewer than nine characters stand before
    the first dot of the name, for instance when a dot comes early. *)
Theorem fname_to_scantime_errors (fname : string) :
  (∀ e, _fname_to_scantime fname = Raise e → exn_cls e = "ValueError")
  ∧ (length (before_first_dot (String.list_ascii_of_string fname)) < 9 →
     ∃ e, _fname_to_scantime fname = Raise e).
Proof.
  unfold _fname_to_scantime. split.
  - intros e.
    destruct (strptime_YmdHMS _) as [d0|e0] eqn:Hparse; [done|].
    cbn [Py.bind]. intros [= <-]. revert Hparse.
    unfold strptime_YmdHMS.
    destruct (match_groups _ _) as [[found [|c rest]]|]; try by intros [= <-].
    repeat (case_match; try by intros [= <-]).
  - intros Hshort.
    destruct (strptime_YmdHMS _) as [d0|e0] eqn:Hparse; [|by exists e0].
    apply strptime_sound in Hparse as (_ & _ & Hlen).
    pose proof (last_chars_length 14
                  (before_first_dot (String.list_ascii_of_string fname))).
    lia.
Qed.

(** X13.  Only the fourteen characters before the first dot count: text
    in front of them and text from the first dot on change neither the
    scan time nor the error. *)
Theorem fname_to_scantime_reads_stem (prefix stem tail : text) :
  length stem = 14 →
  "."%char ∉ prefix →
  "."%char ∉ stem →
  tail = [] ∨ (∃ rest, tail = "."%char :: rest) →
  _fname_to_scantime (String.string_of_list_ascii (prefix ++ stem ++ tail))
  = _fname_to_scantime (String.string_of_list_ascii stem).
Proof.
  intros Hlen Hprefix Hstem Htail. unfold _fname_to_scantime.
  rewrite !String.list_ascii_of_string_of_list_ascii.
  rewrite app_assoc, before_first_dot_app.
  2:{ intros Hin. apply elem_of_app in Hin as [?|?]; done. }
  rewrite before_first_dot_tail, app_nil_r by done.
  rewrite last_chars_app by done.
  rewrite before_first_dot_id by done.
  by rewrite (last_chars_app 14 [] stem Hlen : last_chars 14 stem = stem).
Qed.

End ScantimeProps.

(** ** The snapshot packager: failures before the copy, and paths *)

Section PackagerEffects.

Import Packager Spec.

Variable P : Packager.Libs.
Variable environ : gmap string string.
Variable zarr_path : string.

(** X14.  The destination is opened before the store is staged, so when
    staging fails the handle is closed having received nothing, and
    [create_latest_zip] raises the [OSError] of line 95, built from the
    destination path and the failure.  On a backend whose handles write
    through, the destination is left as an empty file, whatever it held
    before, and no other file changes; on a backend whose handles do not
    reach the file, no file changes. *)
Theorem create_latest_zip_staging_failure (files : gmap string bytes)
    (fs : FileSystem) (ds : Dataset) (cause : exn) :
  resolve_fs environ zarr_path = Ok fs →
  open_zarr P {| store_fs := fs; store_path := zarr_path |} = Ok ds →
  zip_store P ds = Raise cause →
  open_fault P (zippath_of zarr_path) = None →
  (create_latest_zip P environ zarr_path files).2
  = (close_handle P (zippath_of zarr_path) [] files).2
  ∧ (writes_through P →
     create_latest_zip P environ zarr_path files
     = (Raise (zip_error (zippath_of zarr_path) cause),
        <[zippath_of zarr_path := []]> files))
  ∧ (detached P →
     create_latest_zip P environ zarr_path files
     = (Raise (zip_error (zippath_of zarr_path) cause), files)).
Proof.
  intros Hfs Hopen Hstage Hfault.
  unfold create_latest_zip, bindS, lift, with_fdst, open_wb, try_exceptS.
  rewrite Hfs, Hopen, Hfault, Hstage.
  rewrite lookup_singleton_eq. cbn [default from_option id].
  split; [|split].
  - by destruct (close_handle P (zippath_of zarr_path) [] files) as [[e|] f].
  - intros Hwt. by rewrite (Hwt _ _ _).
  - intros Hd. by rewrite (Hd _ _ _).
Qed.

(** X18.  [fs.open] is called in the header of the [with] statement,
    outside the [try]: when it raises - on a destination that is a
    directory, say - its error reaches the caller as it was raised, not
    as the [OSError] of line 95, and no file changes. *)
Theorem create_latest_zip_open_failure (files : gmap string bytes)
    (fs : FileSystem) (ds : Dataset) (e : exn) :
  resolve_fs environ zarr_path = Ok fs →
  open_zarr P {| store_fs := fs; store_path := zarr_path |} = Ok ds →
  open_fault P (zippath_of zarr_path) = Some e →
  create_latest_zip P environ zarr_path files = (Raise e, files).
Proof.
  intros Hfs Hopen Hfault.
  unfold create_latest_zip, bindS, lift, with_fdst, open_wb.
  by rewrite Hfs, Hopen, Hfault.
Qed.

(** X15.  A failure before the [with] statement touches nothing: when
    the backend cannot be resolved, or the store cannot be opened, the
    error reaches the caller as it was raised, not wrapped, and every
    file, the published archive included, is as before. *)
Theorem create_latest_zip_early_failure (files : gmap string bytes) :
  (∀ e, resolve_fs environ zarr_path = Raise e →
        create_latest_zip P environ zarr_path files = (Raise e, files))
  ∧ (∀ fs e, resolve_fs environ zarr_path = Ok fs →
             open_zarr P {| store_fs := fs; store_path := zarr_path |}
               = Raise e →
             create_latest_zip P environ zarr_path files = (Raise e, files)).
Proof.
  unfold create_latest_zip, bindS, lift. split.
  - by intros e ->.
  - by intros fs e -> ->.
Qed.

(** X16.  With no failing write, [shutil.copyfileobj] appends the whole
    source to what the destination holds, whatever block length it is
    given, the length 0 that stands for the default included. *)
Theorem copyfileobj_any_block_length (src acc : bytes) (dst : string)
    (len : nat) (files : gmap string bytes) :
  (∀ j, write_fault P j = None) →
  files !! dst = Some acc →
  copyfileobj P src dst len files = (Ok tt, <[dst := acc ++ src]> files).
Proof.
  intros Hnone Hacc.
  destruct (copyfileobj_run P src dst len acc files Hacc)
    as (written & r & Hrun & _ & Hr & Htot).
  rewrite (Htot Hnone) in *. by rewrite Hrun, Hr.
Qed.

Lemma rsplit_last_Some (s before after : string) :
  rsplit_last s = Some (before, after) →
  s = before +:+ "/" +:+ after ∧ has_slash after = false.
Proof.
  revert before. induction s as [|c s IH]; intros before; [done|].
  cbn [rsplit_last].
  destruct (rsplit_last s) as [[b a]|] eqn:Hs.
  - intros [= <- <-]. destruct (IH b eq_refl) as [-> Hno]. by split.
  - destruct (Ascii.eqb_spec c "/") as [->|_]; [|done].
    intros [= <- <-]. split; [done|].
    clear IH. induction s as [|c s IH]; [done|].
    cbn [rsplit_last has_slash] in *.
    destruct (rsplit_last s) as [[b a]|]; [done|].
    destruct (Ascii.eqb c "/"); [done|]. by apply IH.
Qed.

(** X17.  [rsplit("/", 1)] loses nothing: joining its pieces with a slash
    gives the path back, there are one or two pieces, and the last piece
    holds no slash. *)
Theorem rsplit1_join (s : string) :
  String.concat "/" (rsplit1 s) = s
  ∧ 1 ≤ length (rsplit1 s) ≤ 2
  ∧ ∀ piece, last (rsplit1 s) = Some piece → has_slash piece = false.
Proof.
  unfold rsplit1.
  destruct (rsplit_last s) as [[before after]|] eqn:Hs.
  - apply rsplit_last_Some in Hs as [-> Hno].
    split; [done|]. split; [cbn; lia|]. by intros piece [= <-].
  - split; [done|]. split; [cbn; lia|]. intros piece [= <-].
    clear -Hs. induction s as [|c s IH]; [done|].
    cbn [rsplit_last has_slash] in *.
    destruct (rsplit_last s) as [[b a]|]; [done|].
    destruct (Ascii.eqb c "/"); [done|]. by apply IH.
Qed.

End PackagerEffects.

(** ** The further properties at concrete inputs *)

Lemma failing_attrs_NoDup : NoDup (keys Filename.failing_attrs).
Proof. apply (bool_decide_unpack _). vm_compute. reflexivity. Defined.

Lemma flat_parameters_NoDup : NoDup (keys Filename.flat_parameters).
Proof. apply (bool_decide_unpack _). vm_compute. reflexivity. Defined.

Lemma normalize_attrs_stops_at_failure_witness :
  ∃ value',
    Writer.normalize_attrs Demo.fresh_backend
      (Writer.initial (Demo.sample_da Filename.failing_attrs))
    = (Raise (Exn "RepresenterError" "cannot represent an object" None),
       Writer.initial
         (Demo.sample_da
            [("calibrated", PyStr "True");
             ("orbital_parameters", value');
             ("end_time", PyDatetime Demo.scan_time)])).
Proof.
  destruct (normalize_attrs_stops_at_failure Demo.fresh_backend
              (Writer.initial (Demo.sample_da Filename.failing_attrs))
              [("calibrated", PyBool true)]
              [("end_time", PyDatetime Demo.scan_time)]
              [("calibrated", PyStr "True")]
              "orbital_parameters"
              (PyDict [("nominal",
                        PyDict [("altitude",
                                 PyNpFloating float32 Demo.one_half)]);
                       ("longitude", PyNpFloating float32 Demo.one_half)])
              (Exn "RepresenterError" "cannot represent an object" None)
              eq_refl failing_attrs_NoDup eq_refl eq_refl)
    as (value' & Hrun & _).
  exists value'. exact Hrun.
Defined.

Lemma normalize_attrs_leaves_plain_values_witness :
  keys (attrs (Writer.w_da
                 (Writer.normalize_attrs Demo.fresh_backend
                    Demo.sample_world).2))
  = keys Demo.sample_attrs
  ∧ isinstance_bool (PyStr "True") = false.
Proof.
  destruct (normalize_attrs_leaves_plain_values Demo.fresh_backend
              Demo.sample_world
              (Writer.normalize_attrs Demo.fresh_backend Demo.sample_world).2
              sample_attrs_NoDup) as [Hkeys H].
  - vm_compute. reflexivity.
  - split; [exact Hkeys|].
    refine (proj1 (proj2 (H "calibrated" (PyStr "True") _))).
    vm_compute. right. left.
Defined.

Lemma extended_parameters_NoDup : NoDup (keys Filename.extended_parameters).
Proof. apply (bool_decide_unpack _). vm_compute. reflexivity. Defined.

Lemma widen_loop_widens_direct_values_witness :
  Writer.widen_loop (keys Filename.flat_parameters) Filename.flat_parameters
  = Ok [("satellite_actual_altitude", PyFloat Demo.one_half);
        ("projection_longitude", PyFloat Demo.one_half);
        ("name", PyStr "MSG3")]
  ∧ Writer.widen_loop (keys Filename.extended_parameters)
      Filename.extended_parameters
    = Ok [("satellite_actual_altitude",
           PyFloat (S754_finite false 4503599627370496 1));
          ("projection_longitude", PyFloat Demo.one_half)].
Proof.
  split.
  - destruct (widen_loop_widens_direct_values Filename.flat_parameters
                flat_parameters_NoDup) as [H _].
    exact H.
  - destruct (widen_loop_widens_direct_values Filename.extended_parameters
                extended_parameters_NoDup) as [H _].
    etrans; [exact H|]. vm_compute. reflexivity.
Defined.

Lemma widen_loop_clears_flat_mapping_witness :
  ∃ d', Writer.widen_loop (keys Filename.flat_parameters)
          Filename.flat_parameters = Ok d'
        ∧ has_reduced_float (PyDict d') = false.
Proof.
  apply (widen_loop_clears_flat_mapping Filename.flat_parameters
           flat_parameters_NoDup).
  repeat (apply List.Forall_cons; [exact I|]). apply List.Forall_nil.
Defined.

Lemma docstring_time_valid : Filename.valid_scantime Filename.docstring_time.
Proof.
  unfold Filename.valid_scantime, Filename.docstring_time. cbn.
  repeat split; lia.
Defined.

Lemma fname_to_scantime_documented_form_witness :
  Scantime._fname_to_scantime Filename.docstring_name
  = Ok Filename.docstring_time.
Proof.
  apply (fname_to_scantime_documented_form Filename.docstring_time
           (String.list_ascii_of_string "MSGX-SEVI-MSG15-0100-NA-")
           (String.list_ascii_of_string ".874000000Z-NA.nat")).
  - exact docstring_time_valid.
  - apply (bool_decide_unpack _). vm_compute. reflexivity.
  - right. eexists. reflexivity.
Defined.

Lemma fname_to_scantime_sound_witness :
  Filename.valid_scantime Filename.docstring_time
  ∧ utcoffset_minutes Filename.docstring_time = Some 0%Z.
Proof.
  apply (fname_to_scantime_sound Filename.docstring_name).
  vm_compute. reflexivity.
Defined.

Lemma fname_to_scantime_errors_witness :
  ∃ e, Scantime._fname_to_scantime "a.b-20230910221240.nat" = Raise e.
Proof.
  apply (proj2 (fname_to_scantime_errors "a.b-20230910221240.nat")).
  cbn. lia.
Defined.

Lemma fname_to_scantime_reads_stem_witness :
  Scantime._fname_to_scantime "H-000-MSG4-20240230120000.nat"
  = Scantime._fname_to_scantime "20240230120000".
Proof.
  apply (fname_to_scantime_reads_stem
           (String.list_ascii_of_string "H-000-MSG4-")
           (String.list_ascii_of_string "20240230120000")
           (String.list_ascii_of_string ".nat")).
  - reflexivity.
  - apply (bool_decide_unpack _). vm_compute. reflexivity.
  - apply (bool_decide_unpack _). vm_compute. reflexivity.
  - right. eexists. reflexivity.
Defined.

Lemma create_latest_zip_staging_failure_witness :
  (Packager.create_latest_zip Filename.failing_stage Demo.no_credentials
     Demo.local_store Demo.published).2 !! "data/latest.zarr.zip"
  = Some []
  ∧ (Packager.create_latest_zip Filename.failing_stage_detached
       Demo.no_credentials Demo.local_store Demo.published).2
    = Demo.published.
Proof.
  split.
  - destruct (create_latest_zip_staging_failure Filename.failing_stage
                Demo.no_credentials Demo.local_store Demo.published
                (LocalFS true) Demo.opened_store
                (Exn "OSError" "No space left on device" None)
                eq_refl eq_refl eq_refl eq_refl) as (_ & Hwt & _).
    rewrite Hwt by (by intros ? ? ?). apply lookup_insert_eq.
  - destruct (create_latest_zip_staging_failure
                Filename.failing_stage_detached
                Demo.no_credentials Demo.local_store Demo.published
                (LocalFS true) Demo.opened_store
                (Exn "OSError" "No space left on device" None)
                eq_refl eq_refl eq_refl eq_refl) as (_ & _ & Hd).
    by rewrite Hd by (by intros ? ? ?).
Defined.

Lemma create_latest_zip_open_failure_witness :
  Packager.create_latest_zip Filename.unwritable_destination
    Demo.no_credentials Demo.local_store Demo.published
  = (Raise (Exn "IsADirectoryError"
              "[Errno 21] Is a directory: 'data/latest.zarr.zip'" None),
     Demo.published).
Proof.
  apply (create_latest_zip_open_failure Filename.unwritable_destination
           Demo.no_credentials Demo.local_store Demo.published
           (LocalFS true) Demo.opened_store); reflexivity.
Defined.

Lemma create_latest_zip_early_failure_witness :
  Packager.create_latest_zip Filename.missing_store Demo.no_credentials
    Demo.local_store Demo.published
  = (Raise (Exn "FileNotFoundError" "No such file or directory" None),
     Demo.published).
Proof.
  apply (proj2 (create_latest_zip_early_failure Filename.missing_store
                  Demo.no_credentials Demo.local_store Demo.published)
           (LocalFS true)); reflexivity.
Defined.

Lemma copyfileobj_any_block_length_witness :
  Packager.copyfileobj Demo.healthy_packager Demo.new_archive
    "data/latest.zarr.zip" 4 Demo.published
  = (Ok tt,
     <["data/latest.zarr.zip" := Demo.prior_archive ++ Demo.new_archive]>
       Demo.published).
Proof.
  apply (copyfileobj_any_block_length Demo.healthy_packager); reflexivity.
Defined.

Lemma rsplit1_join_witness :
  Spec.has_slash "store.zarr" = false.
Proof.
  apply (proj2 (proj2 (rsplit1_join "data/store.zarr"))). reflexivity.
Defined.
